(** * Avant Gallery server: the user routes

    A shallow embedding of [app/routes/user_routes.js]: the seven Express
    handlers (view-artists, sign-up, sign-in, change-password, update-artist,
    sign-out, show) written as promise chains over a document store, with the
    properties of the authentication and profile flow proved about them.

    Layout: JavaScript values, errors and promises; the world the handlers
    run in (store, entropy, call trace); the external collaborators (User
    model, bcrypt, crypto, bearer middleware); the handlers; the theorems. *)

From Stdlib Require Import List String Ascii Bool Arith NArith ZArith Lia Floats.
From Stdlib.Strings Require Import Byte.
Import ListNotations.

Local Open Scope string_scope.
Local Open Scope list_scope.

Set Warnings "-register-all".

(* ================================================================== *)
(** ** JavaScript values *)
(* ================================================================== *)

(** The values the handlers touch: what [JSON.parse] puts in [req.body]
    (numbers are IEEE doubles), the [Buffer] that [crypto.randomBytes]
    returns and the [ObjectId] the store assigns. *)
Inductive value : Type :=
| VUndefined
| VNull
| VBool (b : bool)
| VNum (x : float)
| VStr (s : string)
| VArr (items : list value)
| VObj (props : list (string * value))
| VBuffer (bytes : list byte)
| VObjectId (n : nat).

(** [ToBoolean]: what [!v] and [v || d] test. *)
Definition truthy (v : value) : bool :=
  match v with
  | VUndefined | VNull => false
  | VBool b => b
  | VNum x => negb (PrimFloat.eqb x 0%float || PrimFloat.is_nan x)
  | VStr s => negb (String.eqb s "")
  | VArr _ | VObj _ | VBuffer _ | VObjectId _ => true
  end.

(** [a === b] for two values held by different properties of a parsed
    body. Primitives compare by value; objects, arrays and buffers compare
    by reference, and two properties of a freshly parsed body never hold
    the same reference. *)
Definition strict_eq (a b : value) : bool :=
  match a, b with
  | VUndefined, VUndefined => true
  | VNull, VNull => true
  | VBool x, VBool y => Bool.eqb x y
  | VNum x, VNum y => PrimFloat.eqb x y
  | VStr x, VStr y => String.eqb x y
  | _, _ => false
  end.

(** [v || d] *)
Definition or_else (v d : value) : value := if truthy v then v else d.

(** Own-property lookup in an object literal; a key that is not there
    reads as [undefined]. *)
Fixpoint assoc (k : string) (props : list (string * value)) : value :=
  match props with
  | [] => VUndefined
  | (k', v) :: rest => if String.eqb k k' then v else assoc k rest
  end.

Fixpoint has_key (k : string) (props : list (string * value)) : bool :=
  match props with
  | [] => false
  | (k', _) :: rest => String.eqb k k' || has_key k rest
  end.

(** [delete obj[k]] *)
Fixpoint delete (k : string) (props : list (string * value))
  : list (string * value) :=
  match props with
  | [] => []
  | (k', v) :: rest =>
      if String.eqb k k' then delete k rest else (k', v) :: delete k rest
  end.

(** [Object.prototype.hasOwnProperty.call(v, k)] *)
Definition owns (v : value) (k : string) : bool :=
  match v with
  | VObj props => has_key k props
  | _ => false
  end.

(* ================================================================== *)
(** ** Errors and promises *)
(* ================================================================== *)

(** Modelled from the spec: the error classes of [lib/custom_errors]
    (BadParams, BadCredentials, NotFound) and of the bearer middleware
    (Unauthorized) are not in the source tree; each is a class with a
    constructor that takes no argument. [TypeError] is the runtime's own,
    [BcryptError] and [StoreError] stand for what the libraries reject
    with. *)
Inductive error : Type :=
| BadParamsError
| BadCredentialsError
| DocumentNotFoundError
| Unauthorized
| TypeError
| BcryptError (message : string)
| StoreError (message : string).

Inductive Result (A : Type) : Type :=
| Ok (a : A)
| Rejected (e : error).
Arguments Ok {A} a.
Arguments Rejected {A} e.

Record User : Type := mkUser {
  _id : nat;
  name : value;
  email : value;
  hashedPassword : value;
  location : value;
  biography : value;
  artwork : value;
  token : value
}.

(** Calls that leave the process, in the order they are made. *)
Inductive event : Type :=
| Find
| FindOne (path : string) (v : value) (found : option User)
| FindById (i : nat) (found : option User)
| Create (doc : value)
| Save (u : User)
| RandomBytes (n : nat) (bytes : list byte)
| Hash (data : value) (rounds : nat)
| Compare (data hash : value) (r : Result bool).

(** What a handler runs in: the stored documents in insertion order, the
    operating system's entropy as an indexed supply of bytes with a
    cursor, and the trace of outside calls, latest first. *)
Record World : Type := mkWorld {
  users : list User;
  entropy : nat -> byte;
  drawn : nat;
  trace : list event
}.

Definition log (e : event) (w : World) : World :=
  mkWorld (users w) (entropy w) (drawn w) (e :: trace w).

Definition set_users (us : list User) (w : World) : World :=
  mkWorld us (entropy w) (drawn w) (trace w).

(** A promise: a computation over the world that settles either way;
    what it did before it rejected stays done. *)
Definition Promise (A : Type) : Type := World -> Result A * World.

Definition resolve {A} (a : A) : Promise A := fun w => (Ok a, w).
Definition throw {A} (e : error) : Promise A := fun w => (Rejected e, w).

(** [p.then(f)] *)
Definition andThen {A B} (p : Promise A) (f : A -> Promise B) : Promise B :=
  fun w =>
    match p w with
    | (Ok a, w') => f a w'
    | (Rejected e, w') => (Rejected e, w')
    end.

Declare Scope promise_scope.
Delimit Scope promise_scope with promise.
Notation "x <- p ;; q" := (andThen p (fun x => q))
  (at level 61, p at next level, right associativity) : promise_scope.
Notation "p ;; q" := (andThen p (fun _ => q))
  (at level 61, right associativity) : promise_scope.
Local Open Scope promise_scope.

(** [v.k]: reading a property of [undefined] or [null] throws. Of the
    other values only object literals have the properties read here. *)
Definition get (v : value) (k : string) : Promise value :=
  match v with
  | VUndefined | VNull => throw TypeError
  | VObj props => resolve (assoc k props)
  | _ => resolve VUndefined
  end.

(** What [v.k] gives when the read does not throw. *)
Definition field (v : value) (k : string) : value :=
  match v with
  | VObj props => assoc k props
  | _ => VUndefined
  end.

(** [record.f] and [record.f = v] where [record] is what a lookup resolved
    to: [null] when nothing was found. *)
Definition member {A} (record : option User) (f : User -> A) : Promise A :=
  match record with
  | None => throw TypeError
  | Some u => resolve (f u)
  end.

Definition assign (record : option User) (f : User -> User)
  : Promise (option User) :=
  match record with
  | None => throw TypeError
  | Some u => resolve (Some (f u))
  end.

Definition set_name (v : value) (u : User) : User :=
  mkUser (_id u) v (email u) (hashedPassword u) (location u) (biography u)
         (artwork u) (token u).
Definition set_location (v : value) (u : User) : User :=
  mkUser (_id u) (name u) (email u) (hashedPassword u) v (biography u)
         (artwork u) (token u).
Definition set_biography (v : value) (u : User) : User :=
  mkUser (_id u) (name u) (email u) (hashedPassword u) (location u) v
         (artwork u) (token u).
Definition set_hashedPassword (v : value) (u : User) : User :=
  mkUser (_id u) (name u) (email u) v (location u) (biography u)
         (artwork u) (token u).
Definition set_token (v : value) (u : User) : User :=
  mkUser (_id u) (name u) (email u) (hashedPassword u) (location u)
         (biography u) (artwork u) v.

(* ================================================================== *)
(** ** The User model and its store *)
(* ================================================================== *)

Module Store.

(** Modelled from the spec: the User model ([app/models/user.js]) and
    the document store behind it are not in the source tree. The spec
    gives a collection of records with a unique id assigned at creation,
    an email whose uniqueness the store enforces, lookups by email and by
    id, and a serialisation that leaves [hashedPassword] out. A document
    holds what the handler assigned to each path. *)
Definition paths (u : User) : list (string * value) :=
  [ ("_id", VObjectId (_id u));
    ("name", name u);
    ("email", email u);
    ("hashedPassword", hashedPassword u);
    ("location", location u);
    ("biography", biography u);
    ("artwork", artwork u);
    ("token", token u) ].

Definition path (k : string) (u : User) : value := assoc k (paths u).

Definition bytes_eqb (a b : list byte) : bool :=
  if list_eq_dec Byte.byte_eq_dec a b then true else false.

(** Equality of a query value with a stored scalar; a query for [null]
    also finds a path that is not set. *)
Definition matches (q stored : value) : bool :=
  match q, stored with
  | VStr a, VStr b => String.eqb a b
  | VNum a, VNum b => PrimFloat.eqb a b
  | VBool a, VBool b => Bool.eqb a b
  | VObjectId a, VObjectId b => Nat.eqb a b
  | VBuffer a, VBuffer b => bytes_eqb a b
  | (VNull | VUndefined), (VNull | VUndefined) => true
  | _, _ => false
  end.

Definition lookup (k : string) (v : value) (us : list User) : option User :=
  List.find (fun u => matches v (path k u)) us.

Definition lookup_id (i : nat) (us : list User) : option User :=
  List.find (fun u => Nat.eqb (_id u) i) us.

(** [User.find()] *)
Definition find : Promise (list User) :=
  fun w => (Ok (users w), log Find w).

(** [User.findOne({ [k]: v })]: the first match, or [null]. *)
Definition findOne (k : string) (v : value) : Promise (option User) :=
  fun w =>
    let found := lookup k v (users w) in
    (Ok found, log (FindOne k v found) w).

(** [User.findById(i)] *)
Definition findById (i : nat) : Promise (option User) :=
  fun w =>
    let found := lookup_id i (users w) in
    (Ok found, log (FindById i found) w).

Definition fresh_id (us : list User) : nat :=
  S (fold_right (fun u m => Nat.max (_id u) m) 0 us).

(** The document [new User(doc)] builds: the schema's paths read off
    [doc], a fresh id, no token yet. The spec has the handlers apply the
    field defaults before they create the record, so none is added here:
    a path the handler left [undefined] stays unset. *)
Definition build (i : nat) (doc : value) : User :=
  match doc with
  | VObj props =>
      mkUser i (assoc "name" props) (assoc "email" props)
             (assoc "hashedPassword" props) (assoc "location" props)
             (assoc "biography" props) (assoc "artwork" props) VUndefined
  | _ =>
      mkUser i VUndefined VUndefined VUndefined VUndefined VUndefined
             VUndefined VUndefined
  end.

(** [User.create(doc)]: rejected when the email is already taken. *)
Definition create (doc : value) : Promise User :=
  fun w =>
    let u := build (fresh_id (users w)) doc in
    if existsb (fun u' => matches (email u) (email u')) (users w)
    then (Rejected (StoreError "E11000 duplicate key"), log (Create doc) w)
    else (Ok u, log (Create doc) (set_users (users w ++ [u]) w)).

Definition replace (u : User) (us : list User) : list User :=
  map (fun u' => if Nat.eqb (_id u') (_id u) then u else u') us.

(** [u.save()]: writes the document over the stored one with its id;
    rejected when that one is gone. *)
Definition save (u : User) : Promise User :=
  fun w =>
    if existsb (fun u' => Nat.eqb (_id u') (_id u)) (users w)
    then (Ok u, log (Save u) (set_users (replace u (users w)) w))
    else (Rejected (StoreError "No document found for query"),
          log (Save u) w).

(** [record.save()] on what a lookup resolved to. *)
Definition save_record (record : option User) : Promise User :=
  match record with
  | None => throw TypeError
  | Some u => save u
  end.

(** [u.toObject()] with the model's [transform], which deletes
    [hashedPassword] from the plain object; paths that are not set are
    not in it. *)
Definition transform (props : list (string * value))
  : list (string * value) := delete "hashedPassword" props.

Definition toObject (u : User) : value :=
  VObj (transform
          (filter (fun kv => negb (strict_eq (snd kv) VUndefined))
                  (paths u))).

End Store.

(* ================================================================== *)
(** ** crypto and bcrypt *)
(* ================================================================== *)

(** [crypto.randomBytes(n)]: the next [n] bytes of the entropy supply. *)
Definition randomBytes (n : nat) : Promise (list byte) :=
  fun w =>
    let bytes := map (entropy w) (seq (drawn w) n) in
    (Ok bytes,
     log (RandomBytes n bytes)
         (mkWorld (users w) (entropy w) (drawn w + n) (trace w))).

Definition hex_digit (n : N) : ascii :=
  if (n <? 10)%N then ascii_of_N (48 + n) else ascii_of_N (87 + n).

(** [buf.toString('hex')]: two lowercase digits a byte, high nibble
    first. *)
Fixpoint hex (bytes : list byte) : string :=
  match bytes with
  | [] => EmptyString
  | b :: rest =>
      String (hex_digit (Byte.to_N b / 16))
             (String (hex_digit (Byte.to_N b mod 16)) (hex rest))
  end.

(** The value of a lowercase hexadecimal digit. *)
Definition hex_value (c : ascii) : N :=
  let n := N_of_ascii c in
  if (n <? 58)%N then (n - 48)%N else (n - 87)%N.

(** Reading hexadecimal text back, two digits a byte, high nibble first:
    what [Buffer.from(text, 'hex')] gives for text of even length. *)
Fixpoint unhex (text : string) : option (list byte) :=
  match text with
  | EmptyString => Some []
  | String hi (String lo rest) =>
      match Byte.of_N (16 * hex_value hi + hex_value lo), unhex rest with
      | Some b, Some bytes => Some (b :: bytes)
      | _, _ => None
      end
  | String _ EmptyString => None
  end.

(** The characters of lowercase hexadecimal text. *)
Definition lower_hex (c : ascii) : bool :=
  let n := N_of_ascii c in
  ((48 <=? n) && (n <=? 57) || (97 <=? n) && (n <=? 102))%N.

(** The two entry points of the bcrypt library the handlers call, as
    functions of what they are given: the data, the cost and the salt the
    library draws; the data and the stored hash. Either may reject. *)
Record Bcrypt : Type := mkBcrypt {
  hash_with : value -> nat -> list byte -> Result string;
  compare_with : value -> value -> Result bool
}.

(** A stand-in to run the handlers on concrete requests: it keeps the
    data readable after the salt, and rejects what is not a string as the
    library does. *)
Definition plain_hash (data : value) (rounds : nat) (salt : list byte)
  : Result string :=
  match data with
  | VStr s => Ok ("$2b$" ++ hex salt ++ "$" ++ s)%string
  | VUndefined | VNull => Rejected (BcryptError "data and salt arguments required")
  | _ => Rejected (BcryptError "data must be a string or Buffer and salt must either be a salt string or a number of rounds")
  end.

Definition plain_compare (data stored : value) : Result bool :=
  match data, stored with
  | VStr d, VStr h => Ok (String.eqb (substring 37 (String.length h - 37) h) d)
  | (VUndefined | VNull), _ | _, (VUndefined | VNull) =>
      Rejected (BcryptError "data and hash arguments required")
  | _, _ => Rejected (BcryptError "data and hash must be strings")
  end.

Definition plain_bcrypt : Bcrypt := mkBcrypt plain_hash plain_compare.

(* ================================================================== *)
(** ** Requests, responses and the handlers *)
(* ================================================================== *)

(** A request after the JSON body parser: [req.body] is always an
    object, [req.params.id] an id, the bearer token what the
    [Authorization] header carried. *)
Record Request : Type := mkRequest {
  authorization : option string;
  params_id : nat;
  body : list (string * value)
}.

Record Response : Type := mkResponse {
  status : nat;
  json : option value
}.

(** How a handler ends: it answered, or it passed an error to [next]. *)
Inductive Outcome : Type :=
| Responded (r : Response)
| Next (e : error).

Definition Handler : Type := Request -> World -> Outcome * World.

(** [.catch(next)] at the end of a chain. *)
Definition catch_next (p : Promise Response) : World -> Outcome * World :=
  fun w =>
    match p w with
    | (Ok r, w') => (Responded r, w')
    | (Rejected e, w') => (Next e, w')
    end.

(** What [req.body[obj][k]] evaluates to: nothing when [req.body[obj]] is
    [undefined] or [null] and the read throws, the property otherwise
    ([undefined] when it is missing). *)
Definition supplied (req : Request) (obj k : string) : option value :=
  match assoc obj (body req) with
  | VUndefined | VNull => None
  | v => Some (field v k)
  end.

(** [res.status(s).json(v)] and [res.sendStatus(s)] *)
Definition res_json (s : nat) (v : value) : Promise Response :=
  resolve (mkResponse s (Some v)).
Definition res_sendStatus (s : nat) : Promise Response :=
  resolve (mkResponse s None).

Definition bcryptSaltRounds : nat := 10.

(** Modelled from the spec: [handle404] of [lib/custom_errors] is not in
    the source tree; a lookup that found nothing becomes a not-found
    error, a record passes through. *)
Definition handle404 (record : option User) : Promise User :=
  match record with
  | None => throw DocumentNotFoundError
  | Some u => resolve u
  end.

(** Modelled from the spec: the bearer strategy behind [requireToken] is
    not in the source tree; it resolves the token of the [Authorization]
    header against the stored records and fails the request as
    unauthorized when the header is absent or no record holds the token. *)
Definition requireToken (req : Request) : Promise User :=
  match authorization req with
  | None => throw Unauthorized
  | Some bearer =>
      record <- Store.findOne "token" (VStr bearer) ;;
      match record with
      | None => throw Unauthorized
      | Some u => resolve u
      end
  end.

(** [router.verb(path, requireToken, handler)]: the handler runs with
    [req.user] set to what the middleware resolved. Line 29 builds the
    middleware as [passport.authenticate('bearer', { session: false })],
    without [failWithError]: when the strategy refuses the request the
    middleware answers 401 itself, with no JSON, and [next] is not
    called; any other failure of the strategy goes to [next]. *)
Definition authenticated (handler : User -> Handler) : Handler :=
  fun req w =>
    match requireToken req w with
    | (Ok u, w') => handler u req w'
    | (Rejected Unauthorized, w') => (Responded (mkResponse 401 None), w')
    | (Rejected e, w') => (Next e, w')
    end.

(** The object update-artist builds from its input, and its three
    assignments to the record. *)
Definition profile (n l b : value) : list (string * value) :=
  [ ("name", or_else n (VStr "Anonymous"));
    ("location", or_else l (VStr "No Location Given"));
    ("biography", or_else b (VStr "No Biography Found")) ].

Definition assign_profile (credentials : list (string * value)) (u : User)
  : User :=
  set_biography (assoc "biography" credentials)
    (set_location (assoc "location" credentials)
       (set_name (assoc "name" credentials) u)).

(** The object sign-up hands to [User.create], as a function of
    [req.body.credentials] and the hash: [name] and [email] as given,
    [location] and [biography] with their defaults. *)
Definition sign_up_doc (credentials : value) (hash : string) : value :=
  VObj [ ("name", field credentials "name");
         ("email", field credentials "email");
         ("hashedPassword", VStr hash);
         ("location",
          or_else (field credentials "location") (VStr "No Location Given"));
         ("biography",
          or_else (field credentials "biography") (VStr "No Biography Found"));
         ("artwork", VArr []) ].

Section Routes.

Variable bcrypt : Bcrypt.

(** [bcrypt.hash(data, rounds)]: the library checks its arguments before
    it draws the 16-byte salt, so a call it rejects draws nothing. *)
Definition bcrypt_hash (data : value) (rounds : nat) : Promise value :=
  fun w =>
    let salt := map (entropy w) (seq (drawn w) 16) in
    match hash_with bcrypt data rounds salt with
    | Ok h =>
        (Ok (VStr h),
         log (Hash data rounds)
             (mkWorld (users w) (entropy w) (drawn w + 16) (trace w)))
    | Rejected e => (Rejected e, log (Hash data rounds) w)
    end.

(** [bcrypt.compare(data, hash)] *)
Definition bcrypt_compare (data stored : value) : Promise bool :=
  fun w =>
    let r := compare_with bcrypt data stored in
    (r, log (Compare data stored r) w).

(** GET /view-artists *)
Definition view_artists : Handler := fun req =>
  catch_next (
    users <- Store.find ;;
    let userList := map Store.toObject users in
    res_json 200 (VObj [("artists", VArr userList)])).

(** POST /sign-up *)
Definition sign_up : Handler := fun req =>
  let req_body_credentials := assoc "credentials" (body req) in
  catch_next (
    credentials <- resolve req_body_credentials ;;
    (if negb (truthy credentials) then throw BadParamsError else
     password <- get credentials "password" ;;
     if negb (truthy password) then throw BadParamsError else
     confirmation <- get credentials "password_confirmation" ;;
     if negb (strict_eq password confirmation) then throw BadParamsError
     else resolve tt) ;;
    hash <- (password <- get req_body_credentials "password" ;;
             bcrypt_hash password bcryptSaltRounds) ;;
    user <- (name <- get req_body_credentials "name" ;;
             email <- get req_body_credentials "email" ;;
             location <- get req_body_credentials "location" ;;
             biography <- get req_body_credentials "biography" ;;
             resolve (VObj [
               ("name", name);
               ("email", email);
               ("hashedPassword", hash);
               ("location", or_else location (VStr "No Location Given"));
               ("biography", or_else biography (VStr "No Biography Found"));
               ("artwork", VArr []) ])) ;;
    user <- Store.create user ;;
    res_json 201 (VObj [("user", Store.toObject user)])).

(** POST /sign-in *)
Definition sign_in : Handler := fun req =>
  let req_body_credentials := assoc "credentials" (body req) in
  catch_next (
    pw <- get req_body_credentials "password" ;;
    email <- get req_body_credentials "email" ;;
    record <- Store.findOne "email" email ;;
    found <- match record with
             | None => throw BadCredentialsError
             | Some user =>
                 correctPassword <- bcrypt_compare pw (hashedPassword user) ;;
                 resolve (user, correctPassword)
             end ;;
    user <- (let (user, correctPassword) := found in
             if correctPassword : bool then
               bytes <- randomBytes 16 ;;
               let token := VStr (hex bytes) in
               Store.save (set_token token user)
             else throw BadCredentialsError) ;;
    res_json 201 (VObj [("user", Store.toObject user)])).

(** PATCH /change-password *)
Definition change_password (req_user : User) : Handler := fun req =>
  let req_body_passwords := assoc "passwords" (body req) in
  catch_next (
    user <- Store.findById (_id req_user) ;;
    correctPassword <- (old <- get req_body_passwords "old" ;;
                        stored <- member user hashedPassword ;;
                        bcrypt_compare old stored) ;;
    (new <- get req_body_passwords "new" ;;
     if negb (truthy new) || negb correctPassword
     then throw BadParamsError else resolve tt) ;;
    hash <- (new <- get req_body_passwords "new" ;;
             bcrypt_hash new bcryptSaltRounds) ;;
    (user <- assign user (set_hashedPassword hash) ;;
     Store.save_record user) ;;
    res_sendStatus 204).

(** PATCH /update-artist *)
Definition update_artist (req_user : User) : Handler := fun req =>
  let req_body_credentials := assoc "credentials" (body req) in
  catch_next (
    user <- Store.findById (_id req_user) ;;
    credentials <- (name <- get req_body_credentials "name" ;;
                    location <- get req_body_credentials "location" ;;
                    biography <- get req_body_credentials "biography" ;;
                    resolve (profile name location biography)) ;;
    (user <- assign user (assign_profile credentials) ;;
     Store.save_record user) ;;
    res_sendStatus 204).

(** DELETE /sign-out *)
Definition sign_out (req_user : User) : Handler := fun req =>
  catch_next (
    bytes <- randomBytes 16 ;;
    Store.save (set_token (VBuffer bytes) req_user) ;;
    res_sendStatus 204).

(** GET /artists/:id *)
Definition show : Handler := fun req =>
  catch_next (
    record <- Store.findById (params_id req) ;;
    user <- handle404 record ;;
    res_json 200 (VObj [("artist", Store.toObject user)])).

(** The seven routes of the router, in the order they are mounted, and
    what each runs. *)
Inductive Route : Type :=
| ViewArtists | SignUp | SignIn | ChangePassword | UpdateArtist
| SignOut | Show.

Definition router (r : Route) : Handler :=
  match r with
  | ViewArtists => view_artists
  | SignUp => sign_up
  | SignIn => sign_in
  | ChangePassword => authenticated change_password
  | UpdateArtist => authenticated update_artist
  | SignOut => authenticated sign_out
  | Show => show
  end.

End Routes.

(* ================================================================== *)
(** ** Sample requests *)
(* ================================================================== *)

Module Sample.

(** An entropy supply to run the handlers on: byte [i] is [37 i mod 256]. *)
Definition supply (i : nat) : byte :=
  match Byte.of_nat ((i * 37) mod 256) with
  | Some b => b
  | None => x00
  end.

Definition empty : World := mkWorld [] supply 0 [].

Definition credentials (props : list (string * value)) : Request :=
  mkRequest None 0 [("credentials", VObj props)].

(** An artist who filled in a profile, signed in with token ["c0ffee"]. *)
Definition ada : User :=
  mkUser 1 (VStr "Ada") (VStr "ada@example.com")
         (VStr "$2b$00254a6f94b9de03284d7297bce1062b$secret")
         (VStr "London") (VStr "Engines") (VArr []) (VStr "c0ffee").

Definition gallery : World := mkWorld [ada] supply 16 [].

Definition as_ada (b : list (string * value)) : Request :=
  mkRequest (Some "c0ffee") 0 b.

End Sample.


(** The routes mounted with [requireToken] as their second argument. *)
Definition protected (r : Route) : bool :=
  match r with
  | ChangePassword | UpdateArtist | SignOut => true
  | ViewArtists | SignUp | SignIn | Show => false
  end.

Module Scenario.

(** A second artist, signed in with token ["decaf0"], and a store that
    holds both. *)
Definition grace : User :=
  mkUser 2 (VStr "Grace") (VStr "grace@example.com")
         (VStr "$2b$ffffffffffffffffffffffffffffffff$compiler")
         (VStr "Arlington") (VStr "Compilers") (VArr []) (VStr "decaf0").

Definition hall : World := mkWorld [Sample.ada; grace] Sample.supply 16 [].

End Scenario.

(* ================================================================== *)
(** ** Objects and serialisation *)
(* ================================================================== *)

Lemma has_key_delete k props : has_key k (delete k props) = false.
Proof.
  induction props as [|[k' v] rest IH]; simpl; [reflexivity|].
  destruct (String.eqb k k') eqn:E; simpl; [exact IH|].
  now rewrite E.
Qed.

Lemma assoc_delete_other k k' props :
  String.eqb k k' = false -> assoc k (delete k' props) = assoc k props.
Proof.
  intros Hk. induction props as [|[k0 v] rest IH]; simpl; [reflexivity|].
  destruct (String.eqb k' k0) eqn:E'.
  - apply String.eqb_eq in E'. subst k0. now rewrite Hk.
  - simpl. now rewrite IH.
Qed.

Lemma assoc_absent k props : has_key k props = false -> assoc k props = VUndefined.
Proof.
  induction props as [|[k' v] rest IH]; simpl; [reflexivity|].
  destruct (String.eqb k k'); simpl; [discriminate | exact IH].
Qed.

Lemma strict_eq_undefined v : strict_eq v VUndefined = true -> v = VUndefined.
Proof. destruct v; simpl; congruence. Qed.

(** Dropping the properties that hold [undefined] does not change what a
    read of the object gives, as long as no key occurs twice. *)
Lemma assoc_defined k props :
  NoDup (map fst props) ->
  assoc k (filter (fun kv => negb (strict_eq (snd kv) VUndefined)) props)
  = assoc k props.
Proof.
  induction props as [|[k' v] rest IH]; simpl; intros Hnd; [reflexivity|].
  inversion Hnd as [|? ? Hnot Hrest]; subst.
  destruct (strict_eq v VUndefined) eqn:Ev; simpl.
  - apply strict_eq_undefined in Ev. subst v.
    rewrite (IH Hrest).
    destruct (String.eqb k k') eqn:Ek; [|reflexivity].
    apply String.eqb_eq in Ek. subst k'.
    apply assoc_absent.
    destruct (has_key k rest) eqn:Hk; [|reflexivity].
    exfalso. apply Hnot. clear -Hk.
    induction rest as [|[k0 v0] rest IH]; simpl in *; [discriminate|].
    destruct (String.eqb k k0) eqn:E; simpl in Hk.
    + left. symmetry. now apply String.eqb_eq.
    + right. now apply IH.
  - now rewrite (IH Hrest).
Qed.

Lemma paths_keys_distinct u : NoDup (map fst (Store.paths u)).
Proof.
  simpl. repeat (constructor; [simpl; intuition discriminate|]). constructor.
Qed.

(** The plain object of a document has no [hashedPassword] of its own. *)
Lemma toObject_omits_hashedPassword u :
  owns (Store.toObject u) "hashedPassword" = false.
Proof. unfold Store.toObject, Store.transform. simpl owns. apply has_key_delete. Qed.

(** Every other path reads in the plain object as in the document. *)
Lemma toObject_path u k :
  String.eqb k "hashedPassword" = false ->
  exists props, Store.toObject u = VObj props /\ assoc k props = Store.path k u.
Proof.
  intros Hk. eexists. split; [reflexivity|].
  unfold Store.transform. rewrite (assoc_delete_other _ _ _ Hk).
  apply assoc_defined, paths_keys_distinct.
Qed.

(* ================================================================== *)
(** ** Hexadecimal text *)
(* ================================================================== *)

Lemma hex_length bytes : String.length (hex bytes) = 2 * List.length bytes.
Proof. induction bytes as [|b rest IH]; simpl; [reflexivity|]. rewrite IH. lia. Qed.

Lemma hex_digits_lower b :
  lower_hex (hex_digit (Byte.to_N b / 16)) = true /\
  lower_hex (hex_digit (Byte.to_N b mod 16)) = true.
Proof. destruct b; vm_compute; split; reflexivity. Qed.

Lemma hex_lower bytes :
  Forall (fun c => lower_hex c = true) (list_ascii_of_string (hex bytes)).
Proof.
  induction bytes as [|b rest IH]; simpl; [constructor|].
  destruct (hex_digits_lower b) as [Hhi Hlo].
  constructor; [exact Hhi|]. constructor; [exact Hlo | exact IH].
Qed.

Lemma byte_of_hex b :
  Byte.of_N (16 * hex_value (hex_digit (Byte.to_N b / 16))
             + hex_value (hex_digit (Byte.to_N b mod 16))) = Some b.
Proof. destruct b; vm_compute; reflexivity. Qed.

(** The text determines the bytes: no two buffers share their hex form. *)
Lemma hex_injective a b : hex a = hex b -> a = b.
Proof.
  revert b. induction a as [|x a IH]; destruct b as [|y b]; simpl;
    try discriminate; [reflexivity|].
  intros H. injection H as Hhi Hlo Hrest.
  f_equal; [|now apply IH].
  pose proof (byte_of_hex x) as Hx. pose proof (byte_of_hex y) as Hy.
  rewrite Hhi, Hlo in Hx. rewrite Hx in Hy. now injection Hy.
Qed.

(** Reading back what [toString('hex')] wrote gives the bytes. *)
Lemma unhex_hex bytes : unhex (hex bytes) = Some bytes.
Proof.
  induction bytes as [|b rest IH]; [reflexivity|].
  cbn [hex unhex]. now rewrite byte_of_hex, IH.
Qed.

Lemma randomBytes_length n w bytes w' :
  randomBytes n w = (Ok bytes, w') -> List.length bytes = n.
Proof.
  unfold randomBytes. intros H. injection H as <- _.
  now rewrite length_map, length_seq.
Qed.

(* ================================================================== *)
(** ** The store *)
(* ================================================================== *)

Lemma lookup_id_found i us u :
  Store.lookup_id i us = Some u -> _id u = i /\ In u us.
Proof.
  unfold Store.lookup_id. intros H. apply find_some in H as [Hin Heq].
  apply Nat.eqb_eq in Heq. now split.
Qed.

Lemma stored_of_In u us :
  In u us -> existsb (fun u' => Nat.eqb (_id u') (_id u)) us = true.
Proof.
  intros Hin. apply existsb_exists. exists u. split; [exact Hin|].
  apply Nat.eqb_refl.
Qed.

Lemma lookup_found k v us u : Store.lookup k v us = Some u -> In u us.
Proof. unfold Store.lookup. intros H. now apply find_some in H. Qed.

Lemma replace_replace u us :
  Store.replace u (Store.replace u us) = Store.replace u us.
Proof.
  unfold Store.replace. rewrite map_map. apply map_ext. intros u'.
  destruct (Nat.eqb (_id u') (_id u)) eqn:E; [|now rewrite E].
  now rewrite Nat.eqb_refl.
Qed.

Lemma stored_replace u v us :
  existsb (fun u' => Nat.eqb (_id u') (_id v)) (Store.replace u us)
  = existsb (fun u' => Nat.eqb (_id u') (_id v)) us.
Proof.
  induction us as [|x us IH]; simpl; [reflexivity|].
  rewrite IH. f_equal.
  destruct (Nat.eqb (_id x) (_id u)) eqn:E; [|reflexivity].
  apply Nat.eqb_eq in E. now rewrite E.
Qed.

(** After a write the lookup by id gives what was written. *)
Lemma lookup_id_replace u us :
  existsb (fun u' => Nat.eqb (_id u') (_id u)) us = true ->
  Store.lookup_id (_id u) (Store.replace u us) = Some u.
Proof.
  unfold Store.lookup_id.
  induction us as [|x us IH]; simpl; [discriminate|].
  destruct (Nat.eqb (_id x) (_id u)) eqn:E; simpl.
  - now rewrite Nat.eqb_refl.
  - rewrite E. exact IH.
Qed.

Lemma save_stored u w :
  existsb (fun u' => Nat.eqb (_id u') (_id u)) (users w) = true ->
  Store.save u w
  = (Ok u, log (Save u) (set_users (Store.replace u (users w)) w)).
Proof. unfold Store.save. now intros ->. Qed.

(** A write that is rejected, like a write that never happens, leaves the
    collection as it was. *)
Lemma save_rejected u w e w' :
  Store.save u w = (Rejected e, w') -> users w' = users w.
Proof.
  unfold Store.save.
  destruct (existsb _ _); intros H; inversion H. reflexivity.
Qed.

Lemma get_supplied req obj k w :
  get (assoc obj (body req)) k w
  = match supplied req obj k with
    | Some v => (Ok v, w)
    | None => (Rejected TypeError, w)
    end.
Proof. unfold supplied, get, field. now destruct (assoc obj (body req)). Qed.

Lemma supplied_together req obj k k' v :
  supplied req obj k = Some v -> exists v', supplied req obj k' = Some v'.
Proof.
  unfold supplied. destruct (assoc obj (body req)); try discriminate; eauto.
Qed.

(* ================================================================== *)
(** ** Strict equality *)
(* ================================================================== *)

(** [x == y] on doubles holds of equal numbers and of the two zeros. *)
Lemma float_eqb_true x y :
  PrimFloat.eqb x y = true -> x = y \/ PrimFloat.eqb x 0%float = true.
Proof.
  rewrite !FloatAxioms.eqb_spec. intros H.
  replace (FloatOps.Prim2SF 0%float) with (SpecFloat.S754_zero false)
    by reflexivity.
  unfold SpecFloat.SFeqb in *.
  destruct (FloatOps.Prim2SF x) as [sx| sx | | sx mx ex] eqn:Ex;
  destruct (FloatOps.Prim2SF y) as [sy| sy | | sy my ey] eqn:Ey;
    simpl in H; try discriminate; try (right; reflexivity).
  all: try (destruct sx; discriminate); try (destruct sy; discriminate).
  all: left; apply FloatAxioms.Prim2SF_inj; rewrite Ex, Ey.
  - destruct sx, sy; try discriminate; reflexivity.
  - destruct sx, sy; try discriminate;
      destruct (Z.compare ex ey) eqn:Ez; try discriminate;
      apply Z.compare_eq in Ez; subst ey;
      destruct (Pos.compare_cont Eq mx my) eqn:Em; try discriminate;
      apply Pos.compare_eq in Em; subst my; reflexivity.
Qed.

(** Two different values are never [===] once the first is truthy (the
    one pair of different values that is [===], [0] and [-0], is falsy). *)
Lemma strict_eq_distinct p c :
  truthy p = true -> p <> c -> strict_eq p c = false.
Proof.
  intros Ht Hne.
  destruct p, c; simpl in *; try reflexivity; try discriminate.
  - destruct b, b0; simpl; congruence.
  - destruct (PrimFloat.eqb x x0) eqn:E; [|reflexivity].
    apply float_eqb_true in E as [->|E]; [congruence|].
    rewrite E in Ht. discriminate.
  - apply String.eqb_neq. congruence.
Qed.

(* ================================================================== *)
(** ** Sign-up *)
(* ================================================================== *)

Ltac chain :=
  unfold catch_next, andThen, res_json, res_sendStatus, member, assign,
         handle404, resolve, throw in *.

(** One read of [req.body[obj][k]] in a chain, given what it evaluates to. *)
Ltac read H := rewrite get_supplied, H; cbv beta iota.

(** The guard of sign-up, as the handler evaluates it. *)
Lemma sign_up_guard bcrypt req w :
  let credentials := assoc "credentials" (body req) in
  let password := field credentials "password" in
  truthy credentials = false \/
  truthy password = false \/
  strict_eq password (field credentials "password_confirmation") = false ->
  sign_up bcrypt req w = (Next BadParamsError, w).
Proof.
  intros credentials password G.
  unfold sign_up. fold credentials. chain.
  destruct (truthy credentials) eqn:Ec; simpl; [|reflexivity].
  destruct G as [G|G]; [discriminate|].
  subst password. unfold get, field in *. chain.
  destruct credentials; simpl in *; try discriminate; try reflexivity.
  destruct (truthy (assoc "password" props)); simpl; [|reflexivity].
  destruct G as [G|G]; [discriminate|]. now rewrite G.
Qed.

(** C2. A sign-up whose credentials object is absent, whose password is
    missing or the empty string, or whose password is not its
    confirmation, ends in [BadParamsError] and leaves the world as it
    found it: no record is created, and no call to the store (or to
    bcrypt) is made at all, [User.create] included. *)
Theorem sign_up_rejects_bad_params bcrypt req w :
  let credentials := assoc "credentials" (body req) in
  let password := field credentials "password" in
  credentials = VUndefined \/
  password = VUndefined \/
  password = VStr "" \/
  password <> field credentials "password_confirmation" ->
  sign_up bcrypt req w = (Next BadParamsError, w).
Proof.
  intros credentials password H. apply sign_up_guard. fold credentials password.
  destruct (truthy password) eqn:Ep; [|now auto].
  destruct H as [H|[H|[H|H]]].
  - left. now rewrite H.
  - rewrite H in Ep. discriminate.
  - rewrite H in Ep. discriminate.
  - right. right. now apply strict_eq_distinct.
Qed.

Lemma sign_up_rejects_bad_params_witness :
  sign_up plain_bcrypt
    (Sample.credentials [("email", VStr "x@y.com"); ("password", VStr "a");
                         ("password_confirmation", VStr "b")])
    Sample.empty
  = (Next BadParamsError, Sample.empty).
Proof.
  apply sign_up_rejects_bad_params. right. right. right. simpl. discriminate.
Defined.

(** The run of sign-up once the guard let the request through. *)
Lemma sign_up_accepted bcrypt req w :
  let credentials := assoc "credentials" (body req) in
  let password := field credentials "password" in
  truthy credentials = true ->
  truthy password = true ->
  strict_eq password (field credentials "password_confirmation") = true ->
  sign_up bcrypt req w
  = let salt := map (entropy w) (seq (drawn w) 16) in
    let w1 := log (Hash password bcryptSaltRounds)
                  (mkWorld (users w) (entropy w) (drawn w + 16) (trace w)) in
    match hash_with bcrypt password bcryptSaltRounds salt with
    | Rejected err => (Next err, log (Hash password bcryptSaltRounds) w)
    | Ok hash =>
        catch_next
          (andThen (Store.create (sign_up_doc credentials hash)) (fun user =>
           res_json 201 (VObj [("user", Store.toObject user)]))) w1
    end.
Proof.
  intros credentials password Hc Hp Heq.
  assert (Hs : forall k, supplied req "credentials" k
                         = Some (field credentials k)).
  { intros k. unfold supplied. fold credentials.
    destruct credentials; try discriminate; reflexivity. }
  unfold sign_up. fold credentials. chain. rewrite Hc. cbn [negb].
  unfold credentials at 1. read (Hs "password"). fold password.
  rewrite Hp. cbn [negb].
  unfold credentials at 1. read (Hs "password_confirmation").
  fold password. rewrite Heq. cbn [negb].
  unfold credentials at 1. read (Hs "password"). fold password.
  unfold bcrypt_hash. cbv zeta.
  destruct (hash_with bcrypt password bcryptSaltRounds _) as [h|err];
    [|reflexivity].
  unfold credentials at 1. read (Hs "name").
  unfold credentials at 1. read (Hs "email").
  unfold credentials at 1. read (Hs "location").
  unfold credentials at 1. read (Hs "biography").
  reflexivity.
Qed.

(** What a sign-up that answered has done: it appended one record, built
    from the document of [sign_up_doc], and answered 201 with its plain
    object. The record's [name] is the input's, whatever it is; its
    [location] and [biography] are the input's or their defaults. *)
Lemma sign_up_created bcrypt req w r w' :
  sign_up bcrypt req w = (Responded r, w') ->
  exists hash,
    let credentials := assoc "credentials" (body req) in
    let user := Store.build (Store.fresh_id (users w))
                            (sign_up_doc credentials hash) in
    users w' = users w ++ [user] /\
    r = mkResponse 201 (Some (VObj [("user", Store.toObject user)])) /\
    name user = field credentials "name" /\
    location user
    = or_else (field credentials "location") (VStr "No Location Given") /\
    biography user
    = or_else (field credentials "biography") (VStr "No Biography Found").
Proof.
  intros Hrun.
  set (credentials := assoc "credentials" (body req)) in *.
  set (password := field credentials "password").
  destruct (truthy credentials) eqn:Hc.
  2: { rewrite sign_up_guard in Hrun by (left; exact Hc). discriminate. }
  destruct (truthy password) eqn:Hp.
  2: { rewrite sign_up_guard in Hrun by (right; left; exact Hp).
       discriminate. }
  destruct (strict_eq password (field credentials "password_confirmation"))
    eqn:Heq.
  2: { rewrite sign_up_guard in Hrun by (right; right; exact Heq).
       discriminate. }
  rewrite (sign_up_accepted bcrypt req w Hc Hp Heq) in Hrun.
  cbv zeta in Hrun. fold credentials password in Hrun.
  destruct (hash_with bcrypt password bcryptSaltRounds _) as [h|err];
    [|discriminate].
  exists h. cbv zeta.
  unfold catch_next, andThen, Store.create in Hrun.
  cbn [entropy drawn users trace log set_users] in Hrun.
  destruct (existsb _ (users w)); [discriminate|].
  unfold res_json, resolve in Hrun. injection Hrun as <- <-.
  repeat apply conj; reflexivity.
Qed.

(** C6, evaluated where it fails. A sign-up that gives an email and a
    confirmed password and nothing else is answered 201; the record it
    created has the sentinels for [location] and [biography], and for
    [name] it has [undefined], not ["Anonymous"]: line 62 passes
    [credentials.name] on as it came, without the [||] that lines 65, 66
    and update-artist's line 169 have. *)
Theorem sign_up_without_name_stores_no_sentinel :
  let req := Sample.credentials [("email", VStr "x@y.com");
                                 ("password", VStr "secret");
                                 ("password_confirmation", VStr "secret")] in
  exists r w',
    sign_up plain_bcrypt req Sample.empty = (Responded r, w') /\
    status r = 201 /\
    exists user,
      users w' = [user] /\
      name user = VUndefined /\
      name user <> VStr "Anonymous" /\
      location user = VStr "No Location Given" /\
      biography user = VStr "No Biography Found".
Proof.
  intros req. eexists. eexists. split; [reflexivity|].
  split; [reflexivity|]. eexists. split; [reflexivity|].
  repeat apply conj; try reflexivity. discriminate.
Qed.

(* ================================================================== *)
(** ** Sign-in *)
(* ================================================================== *)

(** The run of sign-in when the request has no credentials object. *)
Lemma sign_in_no_credentials bcrypt req w :
  supplied req "credentials" "password" = None ->
  sign_in bcrypt req w = (Next TypeError, w).
Proof.
  intros Hp. unfold sign_in. chain. cbv zeta.
  rewrite get_supplied, Hp. reflexivity.
Qed.

(** The run of sign-in when no record has the email. *)
Lemma sign_in_unknown_email bcrypt req w e :
  supplied req "credentials" "email" = Some e ->
  Store.lookup "email" e (users w) = None ->
  sign_in bcrypt req w
  = (Next BadCredentialsError, log (FindOne "email" e None) w).
Proof.
  intros He Hl.
  destruct (supplied_together _ _ _ "password" _ He) as [pw Hp].
  unfold sign_in. chain. cbv zeta. read Hp. read He.
  unfold Store.findOne. rewrite Hl. reflexivity.
Qed.

(** The run of sign-in up to the verdict of the comparison. *)
Lemma sign_in_compared bcrypt req w e pw user :
  supplied req "credentials" "email" = Some e ->
  supplied req "credentials" "password" = Some pw ->
  Store.lookup "email" e (users w) = Some user ->
  sign_in bcrypt req w
  = let r := compare_with bcrypt pw (hashedPassword user) in
    let w1 := log (Compare pw (hashedPassword user) r)
                  (log (FindOne "email" e (Some user)) w) in
    match r with
    | Ok true =>
        catch_next
          (andThen
             (andThen (randomBytes 16) (fun bytes =>
                Store.save (set_token (VStr (hex bytes)) user)))
             (fun user =>
                res_json 201 (VObj [("user", Store.toObject user)]))) w1
    | Ok false => (Next BadCredentialsError, w1)
    | Rejected err => (Next err, w1)
    end.
Proof.
  intros He Hp Hl.
  unfold sign_in. chain. cbv zeta. read Hp. read He.
  unfold Store.findOne. rewrite Hl. unfold bcrypt_compare. cbv zeta.
  destruct (compare_with bcrypt pw (hashedPassword user)) as [[|]|err];
    reflexivity.
Qed.

(** The run of sign-in once the comparison said yes. *)
Lemma sign_in_matched bcrypt req w e pw user :
  supplied req "credentials" "email" = Some e ->
  supplied req "credentials" "password" = Some pw ->
  Store.lookup "email" e (users w) = Some user ->
  compare_with bcrypt pw (hashedPassword user) = Ok true ->
  let bytes := map (entropy w) (seq (drawn w) 16) in
  let user' := set_token (VStr (hex bytes)) user in
  sign_in bcrypt req w
  = (Responded (mkResponse 201 (Some (VObj [("user", Store.toObject user')]))),
     mkWorld (Store.replace user' (users w)) (entropy w) (drawn w + 16)
             (Save user' :: RandomBytes 16 bytes
              :: Compare pw (hashedPassword user) (Ok true)
              :: FindOne "email" e (Some user) :: trace w)).
Proof.
  intros He Hp Hl Hc bytes user'.
  assert (Hst : existsb (fun u' => Nat.eqb (_id u') (_id user')) (users w)
                = true)
    by (apply (stored_of_In user), (lookup_found _ _ _ _ Hl)).
  rewrite (sign_in_compared _ _ _ _ _ _ He Hp Hl). cbv zeta. rewrite Hc.
  unfold catch_next, andThen, randomBytes. cbv beta iota zeta.
  cbn [entropy drawn users trace log set_users]. fold bytes. fold user'.
  rewrite save_stored by exact Hst. reflexivity.
Qed.

(** A sign-in that answers, answers 201 with the plain object of a record. *)
Lemma sign_in_answer bcrypt req w r w' :
  sign_in bcrypt req w = (Responded r, w') ->
  exists user, r = mkResponse 201 (Some (VObj [("user", Store.toObject user)])).
Proof.
  destruct (supplied req "credentials" "password") as [pw|] eqn:Hp.
  2: { rewrite sign_in_no_credentials by exact Hp. discriminate. }
  destruct (supplied_together _ _ _ "email" _ Hp) as [e He].
  destruct (Store.lookup "email" e (users w)) as [user|] eqn:Hl.
  2: { rewrite (sign_in_unknown_email _ _ _ _ He Hl). discriminate. }
  destruct (compare_with bcrypt pw (hashedPassword user)) as [[|]|err] eqn:Hc.
  - rewrite (sign_in_matched _ _ _ _ _ _ He Hp Hl Hc). cbv zeta.
    intros H. injection H as <- _. eauto.
  - rewrite (sign_in_compared _ _ _ _ _ _ He Hp Hl). cbv zeta. rewrite Hc.
    discriminate.
  - rewrite (sign_in_compared _ _ _ _ _ _ He Hp Hl). cbv zeta. rewrite Hc.
    discriminate.
Qed.

(** C3, as the code has it. A sign-in whose lookup finds no record for
    the supplied email and a sign-in whose lookup finds a record against
    whose stored hash [bcrypt.compare] resolves to false are both passed
    to [next] with [BadCredentialsError], built by the same constructor
    with no argument: the two outcomes are equal, so nothing computed from
    the error (kind, status, message) tells the two causes apart. *)
Theorem sign_in_failures_identical bcrypt req1 w1 e1 req2 w2 e2 pw2 user :
  supplied req1 "credentials" "email" = Some e1 ->
  Store.lookup "email" e1 (users w1) = None ->
  supplied req2 "credentials" "email" = Some e2 ->
  supplied req2 "credentials" "password" = Some pw2 ->
  Store.lookup "email" e2 (users w2) = Some user ->
  compare_with bcrypt pw2 (hashedPassword user) = Ok false ->
  fst (sign_in bcrypt req1 w1) = Next BadCredentialsError /\
  fst (sign_in bcrypt req2 w2) = fst (sign_in bcrypt req1 w1).
Proof.
  intros He1 Hl1 He2 Hp2 Hl2 Hc.
  rewrite (sign_in_unknown_email _ _ _ _ He1 Hl1).
  rewrite (sign_in_compared _ _ _ _ _ _ He2 Hp2 Hl2). cbv zeta.
  rewrite Hc. split; reflexivity.
Qed.

Lemma sign_in_failures_identical_witness :
  let unknown := Sample.credentials [("email", VStr "eve@example.com");
                                     ("password", VStr "secret")] in
  let wrong := Sample.credentials [("email", VStr "ada@example.com");
                                   ("password", VStr "guess")] in
  fst (sign_in plain_bcrypt unknown Sample.gallery) = Next BadCredentialsError /\
  fst (sign_in plain_bcrypt wrong Sample.gallery)
  = fst (sign_in plain_bcrypt unknown Sample.gallery).
Proof.
  intros unknown wrong.
  apply (sign_in_failures_identical plain_bcrypt
           unknown Sample.gallery (VStr "eve@example.com")
           wrong Sample.gallery (VStr "ada@example.com") (VStr "guess")
           Sample.ada); reflexivity.
Defined.

(** C3, as stated, fails on a password that [bcrypt.compare] rejects. The
    two requests below both give the number 12345 for a password; the
    first names an email no record has and ends in [BadCredentialsError],
    the second names a stored email, whose hash the number does not
    match, and ends in the library's own error, which line 99 lets through
    to [next]: the caller can tell the two causes apart. *)
Lemma sign_in_rejected_comparison_tells_apart :
  let unknown := Sample.credentials [("email", VStr "eve@example.com");
                                     ("password", VNum 12345%float)] in
  let known := Sample.credentials [("email", VStr "ada@example.com");
                                   ("password", VNum 12345%float)] in
  Store.lookup "email" (VStr "eve@example.com") (users Sample.gallery) = None
  /\ Store.lookup "email" (VStr "ada@example.com") (users Sample.gallery)
     = Some Sample.ada
  /\ compare_with plain_bcrypt (VNum 12345%float)
                  (hashedPassword Sample.ada) <> Ok true
  /\ fst (sign_in plain_bcrypt unknown Sample.gallery)
     = Next BadCredentialsError
  /\ fst (sign_in plain_bcrypt known Sample.gallery)
     = Next (BcryptError "data and hash must be strings")
  /\ fst (sign_in plain_bcrypt known Sample.gallery)
     <> fst (sign_in plain_bcrypt unknown Sample.gallery).
Proof.
  intros unknown known.
  repeat apply conj; try reflexivity.
  - change (Rejected (BcryptError "data and hash must be strings") <> Ok true).
    discriminate.
  - change (Next (BcryptError "data and hash must be strings")
            <> Next BadCredentialsError).
    discriminate.
Qed.

(** C4. A sign-in whose email resolves to a record and whose password
    matches the stored hash draws 16 bytes from [crypto.randomBytes] (the
    next 16 of the entropy supply, which it consumes), writes them as 32
    lowercase hexadecimal digits from which the bytes read back, puts
    that text in the record's [token], saves the record (the store then
    holds, under the record's id, a record whose [token] is the text) and
    answers 201 with a user object whose [token] is the text. *)
Theorem sign_in_issues_token bcrypt req w e pw user :
  supplied req "credentials" "email" = Some e ->
  supplied req "credentials" "password" = Some pw ->
  Store.lookup "email" e (users w) = Some user ->
  compare_with bcrypt pw (hashedPassword user) = Ok true ->
  exists bytes rep w',
    bytes = map (entropy w) (seq (drawn w) 16) /\
    In (RandomBytes 16 bytes) (trace w') /\
    List.length bytes = 16 /\
    String.length (hex bytes) = 32 /\
    Forall (fun c => lower_hex c = true) (list_ascii_of_string (hex bytes)) /\
    In (Save (set_token (VStr (hex bytes)) user)) (trace w') /\
    Store.lookup_id (_id user) (users w')
    = Some (set_token (VStr (hex bytes)) user) /\
    sign_in bcrypt req w
    = (Responded (mkResponse 201 (Some (VObj [("user", VObj rep)]))), w') /\
    assoc "token" rep = VStr (hex bytes) /\
    drawn w' = drawn w + 16 /\
    exists text stored,
      assoc "token" rep = VStr text /\
      unhex text = Some bytes /\
      (forall other, hex other = text -> other = bytes) /\
      Store.lookup_id (_id user) (users w') = Some stored /\
      token stored = VStr text.
Proof.
  intros He Hp Hl Hc.
  pose proof (sign_in_matched _ _ _ _ _ _ He Hp Hl Hc) as Hrun.
  cbv zeta in Hrun.
  set (bytes := map (entropy w) (seq (drawn w) 16)) in *.
  set (user' := set_token (VStr (hex bytes)) user) in *.
  assert (Hlen : List.length bytes = 16)
    by (unfold bytes; now rewrite length_map, length_seq).
  assert (Hst : Store.lookup_id (_id user)
                  (Store.replace user' (users w)) = Some user').
  { apply (lookup_id_replace user').
    apply (stored_of_In user), (lookup_found _ _ _ _ Hl). }
  destruct (toObject_path user' "token" eq_refl) as [rep [Hrep Htok]].
  rewrite Hrep in Hrun.
  exists bytes, rep. eexists.
  repeat apply conj; [| | | | | | | exact Hrun | exact Htok | |].
  - reflexivity.
  - simpl. auto.
  - exact Hlen.
  - rewrite hex_length, Hlen. reflexivity.
  - apply hex_lower.
  - simpl. auto.
  - exact Hst.
  - reflexivity.
  - exists (hex bytes), user'.
    repeat apply conj.
    + exact Htok.
    + apply unhex_hex.
    + intros other. apply hex_injective.
    + exact Hst.
    + reflexivity.
Qed.

Lemma sign_in_issues_token_witness :
  exists bytes rep w',
    bytes = map (entropy Sample.gallery) (seq (drawn Sample.gallery) 16) /\
    In (RandomBytes 16 bytes) (trace w') /\
    List.length bytes = 16 /\
    String.length (hex bytes) = 32 /\
    Forall (fun c => lower_hex c = true) (list_ascii_of_string (hex bytes)) /\
    In (Save (set_token (VStr (hex bytes)) Sample.ada)) (trace w') /\
    Store.lookup_id (_id Sample.ada) (users w')
    = Some (set_token (VStr (hex bytes)) Sample.ada) /\
    sign_in plain_bcrypt
      (Sample.credentials [("email", VStr "ada@example.com");
                           ("password", VStr "secret")])
      Sample.gallery
    = (Responded (mkResponse 201 (Some (VObj [("user", VObj rep)]))), w') /\
    assoc "token" rep = VStr (hex bytes) /\
    drawn w' = drawn Sample.gallery + 16 /\
    exists text stored,
      assoc "token" rep = VStr text /\
      unhex text = Some bytes /\
      (forall other, hex other = text -> other = bytes) /\
      Store.lookup_id (_id Sample.ada) (users w') = Some stored /\
      token stored = VStr text.
Proof.
  apply (sign_in_issues_token plain_bcrypt _ Sample.gallery
           (VStr "ada@example.com") (VStr "secret") Sample.ada);
    reflexivity.
Defined.

(* ================================================================== *)
(** ** Change password *)
(* ================================================================== *)

(** The run of change-password when the lookup by id finds nothing. *)
Lemma change_password_no_record bcrypt req_user req w :
  Store.lookup_id (_id req_user) (users w) = None ->
  change_password bcrypt req_user req w
  = (Next TypeError, log (FindById (_id req_user) None) w).
Proof.
  intros Hl. unfold change_password, Store.findById. chain. cbv zeta.
  rewrite Hl. rewrite get_supplied.
  destruct (supplied req "passwords" "old"); reflexivity.
Qed.

(** The run of change-password when the request has no passwords object. *)
Lemma change_password_no_passwords bcrypt req_user req w :
  supplied req "passwords" "old" = None ->
  change_password bcrypt req_user req w
  = (Next TypeError,
     log (FindById (_id req_user)
                   (Store.lookup_id (_id req_user) (users w))) w).
Proof.
  intros Ho. unfold change_password, Store.findById. chain. cbv zeta.
  rewrite get_supplied, Ho. reflexivity.
Qed.

(** The run of change-password up to the check of the new password. *)
Lemma change_password_compared bcrypt req_user req w user old new :
  Store.lookup_id (_id req_user) (users w) = Some user ->
  supplied req "passwords" "old" = Some old ->
  supplied req "passwords" "new" = Some new ->
  change_password bcrypt req_user req w
  = let r := compare_with bcrypt old (hashedPassword user) in
    let w1 := log (Compare old (hashedPassword user) r)
                  (log (FindById (_id req_user) (Some user)) w) in
    match r with
    | Ok correctPassword =>
        if negb (truthy new) || negb correctPassword
        then (Next BadParamsError, w1)
        else
          catch_next
            (andThen (bcrypt_hash bcrypt new bcryptSaltRounds) (fun hash =>
             andThen (Store.save (set_hashedPassword hash user)) (fun _ =>
             res_sendStatus 204))) w1
    | Rejected err => (Next err, w1)
    end.
Proof.
  intros Hl Ho Hn. unfold change_password, Store.findById. chain. cbv zeta.
  rewrite Hl. read Ho. unfold bcrypt_compare. cbv zeta.
  destruct (compare_with bcrypt old (hashedPassword user)) as [c|err];
    [|reflexivity].
  read Hn. destruct (negb (truthy new) || negb c); [reflexivity|].
  read Hn. destruct (bcrypt_hash bcrypt new bcryptSaltRounds _) as [[h|err] w2];
    [|reflexivity].
  unfold Store.save_record.
  destruct (Store.save _ w2) as [[u|err] w3]; reflexivity.
Qed.

(** Whatever makes change-password fail, the collection is as it was. *)
Lemma change_password_failure_keeps_store bcrypt req_user req w e w' :
  change_password bcrypt req_user req w = (Next e, w') -> users w' = users w.
Proof.
  destruct (Store.lookup_id (_id req_user) (users w)) as [user|] eqn:Hl.
  2: { rewrite change_password_no_record by exact Hl.
       intros H. now inversion H. }
  destruct (supplied req "passwords" "old") as [old|] eqn:Ho.
  2: { rewrite change_password_no_passwords by exact Ho.
       intros H. now inversion H. }
  destruct (supplied_together _ _ _ "new" _ Ho) as [new Hn].
  rewrite (change_password_compared _ _ _ _ _ _ _ Hl Ho Hn). cbv zeta.
  destruct (compare_with bcrypt old (hashedPassword user)) as [c|err].
  2: { intros H. now inversion H. }
  destruct (negb (truthy new) || negb c).
  { intros H. now inversion H. }
  unfold catch_next, andThen, bcrypt_hash. cbv zeta.
  destruct (hash_with bcrypt new bcryptSaltRounds _) as [h|err].
  2: { intros H. now inversion H. }
  destruct (Store.save _ _) as [[u|err] w3] eqn:Hs.
  { unfold res_sendStatus, resolve. intros H. inversion H. }
  intros H. inversion H. subst. apply save_rejected in Hs. exact Hs.
Qed.

(** A change-password that answers, answers 204 with no body. *)
(** A change-password that answers, answers 204 with no body. *)
Lemma change_password_answer bcrypt req_user req w r w' :
  change_password bcrypt req_user req w = (Responded r, w') ->
  r = mkResponse 204 None.
Proof.
  destruct (Store.lookup_id (_id req_user) (users w)) as [user|] eqn:Hl.
  2: { rewrite change_password_no_record by exact Hl. discriminate. }
  destruct (supplied req "passwords" "old") as [old|] eqn:Ho.
  2: { rewrite change_password_no_passwords by exact Ho. discriminate. }
  destruct (supplied_together _ _ _ "new" _ Ho) as [new Hn].
  rewrite (change_password_compared _ _ _ _ _ _ _ Hl Ho Hn). cbv zeta.
  destruct (compare_with bcrypt old (hashedPassword user)) as [c|err];
    [|discriminate].
  destruct (negb (truthy new) || negb c); [discriminate|].
  unfold catch_next, andThen, bcrypt_hash. cbv zeta.
  destruct (hash_with bcrypt new bcryptSaltRounds _) as [h|err];
    [|discriminate].
  destruct (Store.save _ _) as [[u|err] w3]; [|discriminate].
  unfold res_sendStatus, resolve. intros H. now injection H as <- _.
Qed.




(** The same with an empty new password and no old one, when bcrypt
    rejects data that is not there as the library does. *)
Lemma change_password_no_old_password :
  let req := Sample.as_ada [("passwords", VObj [("new", VStr "")])] in
  field (assoc "passwords" (body req)) "new" = VStr "" /\
  fst (router plain_bcrypt ChangePassword req Sample.gallery)
  = Next (BcryptError "data and hash arguments required").
Proof. split; reflexivity. Qed.

(* ================================================================== *)
(** ** Update artist *)
(* ================================================================== *)

(** The run of update-artist when the lookup by id finds nothing. *)
Lemma update_artist_no_record req_user req w :
  Store.lookup_id (_id req_user) (users w) = None ->
  update_artist req_user req w
  = (Next TypeError, log (FindById (_id req_user) None) w).
Proof.
  intros Hl. unfold update_artist, Store.findById. chain. cbv zeta.
  rewrite Hl. rewrite get_supplied.
  destruct (supplied req "credentials" "name") as [n|] eqn:Hn; [|reflexivity].
  destruct (supplied_together _ _ _ "location" _ Hn) as [l Hlo].
  destruct (supplied_together _ _ _ "biography" _ Hn) as [b Hb].
  cbv beta iota. read Hlo. read Hb. reflexivity.
Qed.

(** The run of update-artist when the request has no credentials object. *)
Lemma update_artist_no_credentials req_user req w :
  supplied req "credentials" "name" = None ->
  update_artist req_user req w
  = (Next TypeError,
     log (FindById (_id req_user)
                   (Store.lookup_id (_id req_user) (users w))) w).
Proof.
  intros Hn. unfold update_artist, Store.findById. chain. cbv zeta.
  rewrite get_supplied, Hn. reflexivity.
Qed.

(** The run of update-artist on a record that is there. *)
Lemma update_artist_found req_user req w user n l b :
  Store.lookup_id (_id req_user) (users w) = Some user ->
  supplied req "credentials" "name" = Some n ->
  supplied req "credentials" "location" = Some l ->
  supplied req "credentials" "biography" = Some b ->
  let user' := assign_profile (profile n l b) user in
  update_artist req_user req w
  = (Responded (mkResponse 204 None),
     mkWorld (Store.replace user' (users w)) (entropy w) (drawn w)
             (Save user' :: FindById (_id req_user) (Some user) :: trace w)).
Proof.
  intros Hl Hn Hlo Hb user'.
  assert (Hst : existsb (fun u' => Nat.eqb (_id u') (_id user')) (users w)
                = true)
    by (apply (stored_of_In user), (lookup_id_found _ _ _ Hl)).
  unfold update_artist, Store.findById. chain. cbv zeta.
  rewrite Hl. read Hn. read Hlo. read Hb.
  unfold Store.save_record. fold user'.
  rewrite save_stored by exact Hst. reflexivity.
Qed.

(** An update-artist that answers, answers 204 with no body. *)
Lemma update_artist_answer req_user req w r w' :
  update_artist req_user req w = (Responded r, w') ->
  r = mkResponse 204 None.
Proof.
  destruct (Store.lookup_id (_id req_user) (users w)) as [user|] eqn:Hl.
  2: { rewrite update_artist_no_record by exact Hl. discriminate. }
  destruct (supplied req "credentials" "name") as [n|] eqn:Hn.
  2: { rewrite update_artist_no_credentials by exact Hn. discriminate. }
  destruct (supplied_together _ _ _ "location" _ Hn) as [l Hlo].
  destruct (supplied_together _ _ _ "biography" _ Hn) as [b Hb].
  rewrite (update_artist_found _ _ _ _ _ _ _ Hl Hn Hlo Hb). cbv zeta.
  intros H. now injection H as <- _.
Qed.

(** C7. After an update-artist that answered, the store holds, under the
    id of the authenticated user, the record the handler saved, and in it
    each of [name], [location] and [biography] that the input left out is
    its sentinel, whatever the record held before. *)
Theorem update_artist_resets_omitted req_user req w r w' :
  update_artist req_user req w = (Responded r, w') ->
  exists user',
    Store.lookup_id (_id req_user) (users w') = Some user' /\
    In (Save user') (trace w') /\
    (supplied req "credentials" "name" = Some VUndefined ->
     name user' = VStr "Anonymous") /\
    (supplied req "credentials" "location" = Some VUndefined ->
     location user' = VStr "No Location Given") /\
    (supplied req "credentials" "biography" = Some VUndefined ->
     biography user' = VStr "No Biography Found").
Proof.
  intros Hrun.
  destruct (Store.lookup_id (_id req_user) (users w)) as [user|] eqn:Hl.
  2: { rewrite update_artist_no_record in Hrun by exact Hl. discriminate. }
  destruct (supplied req "credentials" "name") as [n|] eqn:Hn.
  2: { rewrite update_artist_no_credentials in Hrun by exact Hn.
       discriminate. }
  destruct (supplied_together _ _ _ "location" _ Hn) as [l Hlo].
  destruct (supplied_together _ _ _ "biography" _ Hn) as [b Hb].
  rewrite (update_artist_found _ _ _ _ _ _ _ Hl Hn Hlo Hb) in Hrun.
  cbv zeta in Hrun. injection Hrun as _ <-.
  destruct (lookup_id_found _ _ _ Hl) as [Hid Hin].
  exists (assign_profile (profile n l b) user).
  repeat apply conj.
  - cbn [users]. rewrite <- Hid.
    apply (lookup_id_replace (assign_profile (profile n l b) user)).
    apply (stored_of_In user), Hin.
  - simpl. auto.
  - intros H. injection H as ->. reflexivity.
  - intros H. rewrite Hlo in H. injection H as ->. reflexivity.
  - intros H. rewrite Hb in H. injection H as ->. reflexivity.
Qed.

Lemma update_artist_resets_omitted_witness :
  let req := Sample.as_ada [("credentials", VObj [("location", VStr "Paris")])] in
  name Sample.ada = VStr "Ada" /\
  biography Sample.ada = VStr "Engines" /\
  exists user',
    Store.lookup_id (_id Sample.ada)
                    (users (snd (update_artist Sample.ada req Sample.gallery)))
    = Some user' /\
    In (Save user') (trace (snd (update_artist Sample.ada req Sample.gallery))) /\
    (supplied req "credentials" "name" = Some VUndefined ->
     name user' = VStr "Anonymous") /\
    (supplied req "credentials" "location" = Some VUndefined ->
     location user' = VStr "No Location Given") /\
    (supplied req "credentials" "biography" = Some VUndefined ->
     biography user' = VStr "No Biography Found").
Proof.
  intros req. split; [reflexivity|]. split; [reflexivity|].
  apply (update_artist_resets_omitted Sample.ada req Sample.gallery
           (mkResponse 204 None)).
  reflexivity.
Defined.

(** The three assignments, made twice from the same object: the second
    pass changes nothing. *)
Lemma assign_profile_twice n l b u :
  assign_profile (profile n l b) (assign_profile (profile n l b) u)
  = assign_profile (profile n l b) u.
Proof. reflexivity. Qed.

(** C9. Update-artist is idempotent. On a record: computing the fields
    from an input and assigning them twice gives the [name], [location]
    and [biography] that doing it once gives. On the store: running the
    handler twice on the same request leaves the collection that running
    it once leaves, whether it answered or failed. *)
Theorem update_artist_idempotent :
  (forall n l b u,
     let once := assign_profile (profile n l b) u in
     let twice := assign_profile (profile n l b) once in
     name twice = name once /\ location twice = location once /\
     biography twice = biography once) /\
  (forall req_user req w,
     let once := snd (update_artist req_user req w) in
     let twice := snd (update_artist req_user req once) in
     users twice = users once).
Proof.
  split.
  - intros n l b u. cbv zeta. repeat split.
  - intros req_user req w. cbv zeta.
    destruct (Store.lookup_id (_id req_user) (users w)) as [user|] eqn:Hl.
    2: { rewrite (update_artist_no_record req_user req w Hl). cbn [snd].
         rewrite update_artist_no_record by exact Hl. reflexivity. }
    destruct (supplied req "credentials" "name") as [n|] eqn:Hn.
    2: { rewrite (update_artist_no_credentials req_user req w Hn).
         cbn [snd].
         rewrite update_artist_no_credentials by exact Hn. reflexivity. }
    destruct (supplied_together _ _ _ "location" _ Hn) as [l Hlo].
    destruct (supplied_together _ _ _ "biography" _ Hn) as [b Hb].
    rewrite (update_artist_found req_user req w _ _ _ _ Hl Hn Hlo Hb).
    cbv zeta. cbn [snd].
    set (user' := assign_profile (profile n l b) user).
    destruct (lookup_id_found _ _ _ Hl) as [Hid Hin].
    assert (Hl' : Store.lookup_id (_id req_user)
                    (Store.replace user' (users w)) = Some user').
    { rewrite <- Hid. apply (lookup_id_replace user').
      apply (stored_of_In user), Hin. }
    rewrite (update_artist_found _ _ _ user' n l b); try assumption.
    cbv zeta. cbn [snd users]. unfold user'.
    rewrite assign_profile_twice. apply replace_replace.
Qed.

(* ================================================================== *)
(** ** Sign-out *)
(* ================================================================== *)

(** What the bearer middleware resolved, when it let the request through. *)
Lemma requireToken_resolved req w user w1 :
  requireToken req w = (Ok user, w1) ->
  exists bearer,
    authorization req = Some bearer /\
    Store.lookup "token" (VStr bearer) (users w) = Some user /\
    token user = VStr bearer /\
    w1 = log (FindOne "token" (VStr bearer) (Some user)) w.
Proof.
  unfold requireToken. destruct (authorization req) as [bearer|]; [|discriminate].
  unfold Store.findOne. chain.
  destruct (Store.lookup "token" (VStr bearer) (users w)) as [u|] eqn:Hl;
    [|discriminate].
  intros H. injection H as <- <-. exists bearer.
  repeat apply conj; [reflexivity | exact Hl | | reflexivity].
  unfold Store.lookup in Hl. apply find_some in Hl as [_ Hm].
  change (Store.path "token" u) with (token u) in Hm.
  destruct (token u); simpl in Hm; try discriminate.
  apply String.eqb_eq in Hm. now subst.
Qed.

(** How a protected route runs: the handler on what the middleware
    resolved, or the middleware's own end of the request. *)
Lemma authenticated_run handler req w out w' :
  authenticated handler req w = (out, w') ->
  (exists u w1, requireToken req w = (Ok u, w1) /\
                handler u req w1 = (out, w')) \/
  (exists e, requireToken req w = (Rejected e, w') /\
             (out = Responded (mkResponse 401 None) \/ out = Next e)).
Proof.
  unfold authenticated.
  destruct (requireToken req w) as [[u|e] w1]; intros H.
  - left. eauto.
  - right. exists e. destruct e; injection H as <- <-; auto.
Qed.

(** The run of sign-out for a user whose record is there. *)
Lemma sign_out_stored req_user req w :
  existsb (fun u' => Nat.eqb (_id u') (_id req_user)) (users w) = true ->
  let bytes := map (entropy w) (seq (drawn w) 16) in
  let user' := set_token (VBuffer bytes) req_user in
  sign_out req_user req w
  = (Responded (mkResponse 204 None),
     mkWorld (Store.replace user' (users w)) (entropy w) (drawn w + 16)
             (Save user' :: RandomBytes 16 bytes :: trace w)).
Proof.
  intros Hst bytes user'. unfold sign_out, randomBytes. chain. cbv zeta.
  cbn [entropy drawn users trace log set_users]. fold bytes. fold user'.
  rewrite save_stored by exact Hst. reflexivity.
Qed.

(** A sign-out that answers, answers 204 with no body. *)
Lemma sign_out_answer req_user req w r w' :
  sign_out req_user req w = (Responded r, w') -> r = mkResponse 204 None.
Proof.
  unfold sign_out, randomBytes. chain. cbv zeta.
  destruct (Store.save _ _) as [[u|err] w3]; [|discriminate].
  intros H. now injection H as <- _.
Qed.

(** C8. A sign-out that the bearer middleware let through draws 16 bytes
    from [crypto.randomBytes] (the next 16 of the entropy supply, which it
    consumes), puts the buffer itself (no hex text) in the user's [token],
    saves the record and answers 204. The store then holds, under the
    user's id, a record whose [token] is that buffer and is not the old
    token: the old one matched the text of the [Authorization] header,
    the new one is a buffer. *)
Theorem sign_out_replaces_token bcrypt req w user w1 :
  requireToken req w = (Ok user, w1) ->
  exists bytes w',
    router bcrypt SignOut req w = (Responded (mkResponse 204 None), w') /\
    bytes = map (entropy w) (seq (drawn w) 16) /\
    In (RandomBytes 16 bytes) (trace w') /\
    List.length bytes = 16 /\
    In (Save (set_token (VBuffer bytes) user)) (trace w') /\
    Store.lookup_id (_id user) (users w')
    = Some (set_token (VBuffer bytes) user) /\
    VBuffer bytes <> token user /\
    drawn w' = drawn w + 16 /\
    exists stored,
      Store.lookup_id (_id user) (users w') = Some stored /\
      token stored = VBuffer bytes /\
      token stored <> token user.
Proof.
  intros Hauth.
  destruct (requireToken_resolved _ _ _ _ Hauth) as [bearer [_ [Hl [Htok ->]]]].
  assert (Hst : existsb (fun u' => Nat.eqb (_id u') (_id user)) (users w) = true)
    by (apply stored_of_In, (lookup_found _ _ _ _ Hl)).
  unfold router, authenticated. rewrite Hauth.
  rewrite sign_out_stored by exact Hst. cbv zeta.
  cbn [entropy drawn users trace log set_users].
  set (bytes := map (entropy w) (seq (drawn w) 16)).
  assert (Hs : Store.lookup_id (_id user)
                 (Store.replace (set_token (VBuffer bytes) user) (users w))
               = Some (set_token (VBuffer bytes) user))
    by (apply (lookup_id_replace (set_token (VBuffer bytes) user)); exact Hst).
  exists bytes. eexists.
  repeat apply conj; [reflexivity | reflexivity | | | | | | |].
  - simpl. auto.
  - unfold bytes. now rewrite length_map, length_seq.
  - simpl. auto.
  - exact Hs.
  - rewrite Htok. discriminate.
  - reflexivity.
  - exists (set_token (VBuffer bytes) user).
    repeat apply conj; [exact Hs | reflexivity |].
    rewrite Htok. discriminate.
Qed.

Lemma sign_out_replaces_token_witness :
  exists bytes w',
    router plain_bcrypt SignOut (Sample.as_ada []) Sample.gallery
    = (Responded (mkResponse 204 None), w') /\
    bytes = map (entropy Sample.gallery) (seq (drawn Sample.gallery) 16) /\
    In (RandomBytes 16 bytes) (trace w') /\
    List.length bytes = 16 /\
    In (Save (set_token (VBuffer bytes) Sample.ada)) (trace w') /\
    Store.lookup_id (_id Sample.ada) (users w')
    = Some (set_token (VBuffer bytes) Sample.ada) /\
    VBuffer bytes <> token Sample.ada /\
    drawn w' = drawn Sample.gallery + 16 /\
    exists stored,
      Store.lookup_id (_id Sample.ada) (users w') = Some stored /\
      token stored = VBuffer bytes /\
      token stored <> token Sample.ada.
Proof.
  apply (sign_out_replaces_token plain_bcrypt (Sample.as_ada [])
           Sample.gallery Sample.ada
           (log (FindOne "token" (VStr "c0ffee") (Some Sample.ada))
                Sample.gallery)).
  reflexivity.
Defined.

(* ================================================================== *)
(** ** A record that is gone *)
(* ================================================================== *)

(** C10. Change-password and update-artist read and write the record the
    lookup by id resolved to without checking that there is one: when the
    lookup finds nothing both are passed to [next] with a [TypeError], and
    so neither answers. Show sends the same miss through [handle404] and
    ends in [DocumentNotFoundError]. *)
Theorem missing_record_is_type_error bcrypt req_user req w :
  Store.lookup_id (_id req_user) (users w) = None ->
  fst (change_password bcrypt req_user req w) = Next TypeError /\
  fst (update_artist req_user req w) = Next TypeError /\
  (forall r w', change_password bcrypt req_user req w <> (Responded r, w')) /\
  (forall r w', update_artist req_user req w <> (Responded r, w')) /\
  (forall req', params_id req' = _id req_user ->
                fst (show req' w) = Next DocumentNotFoundError).
Proof.
  intros Hl.
  rewrite change_password_no_record, update_artist_no_record by exact Hl.
  repeat apply conj; try reflexivity; try discriminate.
  intros req' Hid. unfold show, Store.findById. chain.
  rewrite Hid, Hl. reflexivity.
Qed.

Lemma missing_record_is_type_error_witness :
  let req := Sample.as_ada [("passwords", VObj [("old", VStr "secret");
                                                 ("new", VStr "s3cret")]);
                            ("credentials", VObj [("name", VStr "Ada")])] in
  fst (change_password plain_bcrypt Sample.ada req Sample.empty)
  = Next TypeError /\
  fst (update_artist Sample.ada req Sample.empty) = Next TypeError /\
  (forall r w', change_password plain_bcrypt Sample.ada req Sample.empty
                <> (Responded r, w')) /\
  (forall r w', update_artist Sample.ada req Sample.empty
                <> (Responded r, w')) /\
  (forall req', params_id req' = _id Sample.ada ->
                fst (show req' Sample.empty) = Next DocumentNotFoundError).
Proof.
  intros req.
  apply (missing_record_is_type_error plain_bcrypt Sample.ada req Sample.empty).
  reflexivity.
Defined.

(* ================================================================== *)
(** ** What a response shows of a user *)
(* ================================================================== *)

(** C1. Whatever route answers, a user in the JSON of the answer has no
    [hashedPassword]: sign-up and sign-in answer [{ user }], show answers
    [{ artist }], view-artists answers [{ artists }] with one object per
    stored record, and in each of these objects the field is absent; the
    other routes answer with no body. *)
Theorem hashedPassword_never_serialized bcrypt route req w r w' :
  router bcrypt route req w = (Responded r, w') ->
  match route with
  | SignUp | SignIn =>
      exists rep, json r = Some (VObj [("user", rep)]) /\
                  owns rep "hashedPassword" = false
  | Show =>
      exists rep, json r = Some (VObj [("artist", rep)]) /\
                  owns rep "hashedPassword" = false
  | ViewArtists =>
      exists reps, json r = Some (VObj [("artists", VArr reps)]) /\
                   List.length reps = List.length (users w) /\
                   Forall (fun rep => owns rep "hashedPassword" = false) reps
  | ChangePassword | UpdateArtist | SignOut => json r = None
  end.
Proof.
  destruct route; cbn [router]; intros Hrun.
  - unfold view_artists, Store.find in Hrun. chain.
    injection Hrun as <- _. eexists. split; [reflexivity|].
    split; [apply length_map|].
    apply Forall_map, Forall_forall. intros u _.
    apply toObject_omits_hashedPassword.
  - destruct (sign_up_created _ _ _ _ _ Hrun) as [h [_ [-> _]]].
    eexists. split; [reflexivity|]. apply toObject_omits_hashedPassword.
  - destruct (sign_in_answer _ _ _ _ _ Hrun) as [u ->].
    eexists. split; [reflexivity|]. apply toObject_omits_hashedPassword.
  - destruct (authenticated_run _ _ _ _ _ Hrun)
      as [[u [w1 [_ H]]]|[e [_ [[= ->]|[=]]]]]; [|reflexivity].
    now rewrite (change_password_answer _ _ _ _ _ _ H).
  - destruct (authenticated_run _ _ _ _ _ Hrun)
      as [[u [w1 [_ H]]]|[e [_ [[= ->]|[=]]]]]; [|reflexivity].
    now rewrite (update_artist_answer _ _ _ _ _ H).
  - destruct (authenticated_run _ _ _ _ _ Hrun)
      as [[u [w1 [_ H]]]|[e [_ [[= ->]|[=]]]]]; [|reflexivity].
    now rewrite (sign_out_answer _ _ _ _ _ H).
  - unfold show, Store.findById in Hrun. chain.
    destruct (Store.lookup_id (params_id req) (users w)) as [u|];
      [|discriminate].
    injection Hrun as <- _. eexists. split; [reflexivity|].
    apply toObject_omits_hashedPassword.
Qed.

Lemma hashedPassword_never_serialized_witness :
  let req := Sample.credentials [("email", VStr "ada@example.com");
                                 ("password", VStr "secret")] in
  hashedPassword Sample.ada
  = VStr "$2b$00254a6f94b9de03284d7297bce1062b$secret" /\
  exists r w',
    router plain_bcrypt SignIn req Sample.gallery = (Responded r, w') /\
    exists rep, json r = Some (VObj [("user", rep)]) /\
                owns rep "hashedPassword" = false.
Proof.
  intros req. split; [reflexivity|].
  eexists. eexists. split; [reflexivity|].
  exact (hashedPassword_never_serialized plain_bcrypt SignIn req
           Sample.gallery _ _ eq_refl).
Defined.

(* ================================================================== *)
(** ** The store, continued *)
(* ================================================================== *)

Lemma replace_ids x us : map _id (Store.replace x us) = map _id us.
Proof.
  unfold Store.replace. rewrite map_map. apply map_ext. intros u.
  destruct (Nat.eqb (_id u) (_id x)) eqn:E; [|reflexivity].
  apply Nat.eqb_eq in E. now symmetry.
Qed.

(** A write under one id leaves the lookup under any other id as it was. *)
Lemma lookup_id_replace_other i x us :
  i <> _id x -> Store.lookup_id i (Store.replace x us) = Store.lookup_id i us.
Proof.
  intros Hne. unfold Store.lookup_id, Store.replace.
  induction us as [|u us IH]; simpl; [reflexivity|].
  destruct (Nat.eqb (_id u) (_id x)) eqn:E.
  - apply Nat.eqb_eq in E.
    replace (Nat.eqb (_id x) i) with false
      by (symmetry; apply Nat.eqb_neq; congruence).
    replace (Nat.eqb (_id u) i) with false
      by (symmetry; apply Nat.eqb_neq; congruence).
    exact IH.
  - destruct (Nat.eqb (_id u) i); [reflexivity | exact IH].
Qed.

Lemma fresh_id_above us u : In u us -> _id u < Store.fresh_id us.
Proof.
  unfold Store.fresh_id. induction us as [|x us IH]; simpl; [easy|].
  intros [->|Hin]; [lia|]. specialize (IH Hin). lia.
Qed.

Lemma fresh_id_new us : ~ In (Store.fresh_id us) (map _id us).
Proof.
  intros Hin. apply in_map_iff in Hin as [u [Hid Hin]].
  apply fresh_id_above in Hin. lia.
Qed.

Lemma build_id i doc : _id (Store.build i doc) = i.
Proof. destruct doc; reflexivity. Qed.

(** With ids that are all different, the lookup by a stored record's id
    gives that record. *)
Lemma lookup_id_unique us u :
  NoDup (map _id us) -> In u us -> Store.lookup_id (_id u) us = Some u.
Proof.
  unfold Store.lookup_id.
  induction us as [|x us IH]; simpl; intros Hnd Hin; [easy|].
  inversion Hnd as [|? ? Hnot Hrest]; subst.
  destruct Hin as [->|Hin]; [now rewrite Nat.eqb_refl|].
  destruct (Nat.eqb (_id x) (_id u)) eqn:E; [|now apply IH].
  apply Nat.eqb_eq in E. exfalso. apply Hnot. rewrite E.
  now apply in_map.
Qed.

(** What the bearer middleware leaves of the world: it only reads. *)
Lemma requireToken_reads req w r w1 :
  requireToken req w = (r, w1) ->
  users w1 = users w /\ entropy w1 = entropy w /\ drawn w1 = drawn w.
Proof.
  unfold requireToken. destruct (authorization req) as [bearer|].
  - unfold Store.findOne. chain.
    destruct (Store.lookup "token" (VStr bearer) (users w));
      intros H; injection H as _ <-; repeat split.
  - chain. intros H. injection H as _ <-. repeat split.
Qed.

(* ================================================================== *)
(** ** What each handler does to the collection *)
(* ================================================================== *)

Lemma view_artists_run req w :
  view_artists req w
  = (Responded (mkResponse 200
       (Some (VObj [("artists", VArr (map Store.toObject (users w)))]))),
     log Find w).
Proof. reflexivity. Qed.

Lemma show_run req w :
  show req w
  = (match Store.lookup_id (params_id req) (users w) with
     | Some u => Responded (mkResponse 200
                   (Some (VObj [("artist", Store.toObject u)])))
     | None => Next DocumentNotFoundError
     end,
     log (FindById (params_id req)
                   (Store.lookup_id (params_id req) (users w))) w).
Proof.
  unfold show, Store.findById. chain.
  destruct (Store.lookup_id (params_id req) (users w)); reflexivity.
Qed.

Lemma sign_up_effect bcrypt req w out w' :
  sign_up bcrypt req w = (out, w') ->
  (exists e, out = Next e /\ users w' = users w) \/
  (exists r u, out = Responded r /\ users w' = users w ++ [u] /\
               _id u = Store.fresh_id (users w)).
Proof.
  intros Hrun. destruct out as [r|e].
  - right. destruct (sign_up_created _ _ _ _ _ Hrun) as [h [Hu _]].
    cbv zeta in Hu. eexists. eexists. split; [reflexivity|].
    split; [exact Hu|]. apply build_id.
  - left. exists e. split; [reflexivity|].
    set (credentials := assoc "credentials" (body req)) in *.
    set (password := field credentials "password").
    destruct (truthy credentials) eqn:Hc.
    2: { rewrite sign_up_guard in Hrun by (left; exact Hc).
         now injection Hrun as _ <-. }
    destruct (truthy password) eqn:Hp.
    2: { rewrite sign_up_guard in Hrun by (right; left; exact Hp).
         now injection Hrun as _ <-. }
    destruct (strict_eq password (field credentials "password_confirmation"))
      eqn:Heq.
    2: { rewrite sign_up_guard in Hrun by (right; right; exact Heq).
         now injection Hrun as _ <-. }
    rewrite (sign_up_accepted bcrypt req w Hc Hp Heq) in Hrun.
    cbv zeta in Hrun. fold credentials password in Hrun.
    destruct (hash_with bcrypt password bcryptSaltRounds _) as [h|err].
    2: { now injection Hrun as _ <-. }
    unfold catch_next, andThen, Store.create in Hrun.
    cbn [entropy drawn users trace log set_users] in Hrun.
    destruct (existsb _ (users w)).
    + now injection Hrun as _ <-.
    + unfold res_json, resolve in Hrun. discriminate.
Qed.

Lemma sign_in_effect bcrypt req w out w' :
  sign_in bcrypt req w = (out, w') ->
  (exists e, out = Next e /\ users w' = users w) \/
  (exists r x, out = Responded r /\ users w' = Store.replace x (users w)).
Proof.
  destruct (supplied req "credentials" "password") as [pw|] eqn:Hp.
  2: { rewrite sign_in_no_credentials by exact Hp.
       intros H. injection H as <- <-. left. eauto. }
  destruct (supplied_together _ _ _ "email" _ Hp) as [e He].
  destruct (Store.lookup "email" e (users w)) as [user|] eqn:Hl.
  2: { rewrite (sign_in_unknown_email _ _ _ _ He Hl).
       intros H. injection H as <- <-. left. eauto. }
  destruct (compare_with bcrypt pw (hashedPassword user)) as [[|]|err] eqn:Hc.
  - rewrite (sign_in_matched _ _ _ _ _ _ He Hp Hl Hc). cbv zeta.
    intros H. injection H as <- <-. right. do 2 eexists. split; reflexivity.
  - rewrite (sign_in_compared _ _ _ _ _ _ He Hp Hl). cbv zeta. rewrite Hc.
    intros H. injection H as <- <-. left. eauto.
  - rewrite (sign_in_compared _ _ _ _ _ _ He Hp Hl). cbv zeta. rewrite Hc.
    intros H. injection H as <- <-. left. eauto.
Qed.

(** The run of change-password once the check let the request through
    and bcrypt gave the new hash. *)
Lemma change_password_changed bcrypt req_user req w user old new h :
  Store.lookup_id (_id req_user) (users w) = Some user ->
  supplied req "passwords" "old" = Some old ->
  supplied req "passwords" "new" = Some new ->
  compare_with bcrypt old (hashedPassword user) = Ok true ->
  truthy new = true ->
  hash_with bcrypt new bcryptSaltRounds (map (entropy w) (seq (drawn w) 16))
  = Ok h ->
  let user' := set_hashedPassword (VStr h) user in
  change_password bcrypt req_user req w
  = (Responded (mkResponse 204 None),
     mkWorld (Store.replace user' (users w)) (entropy w) (drawn w + 16)
             (Save user' :: Hash new bcryptSaltRounds
              :: Compare old (hashedPassword user) (Ok true)
              :: FindById (_id req_user) (Some user) :: trace w)).
Proof.
  intros Hl Ho Hn Hc Ht Hh user'.
  assert (Hst : existsb (fun u' => Nat.eqb (_id u') (_id user')) (users w)
                = true)
    by (apply (stored_of_In user), (lookup_id_found _ _ _ Hl)).
  rewrite (change_password_compared _ _ _ _ _ _ _ Hl Ho Hn). cbv zeta.
  rewrite Hc, Ht. cbn [negb orb].
  unfold catch_next, andThen, bcrypt_hash. cbv zeta.
  cbn [entropy drawn users trace log set_users]. rewrite Hh. fold user'.
  rewrite save_stored by exact Hst. reflexivity.
Qed.

Lemma change_password_effect bcrypt req_user req w out w' :
  change_password bcrypt req_user req w = (out, w') ->
  (exists e, out = Next e /\ users w' = users w) \/
  (exists r x, out = Responded r /\ _id x = _id req_user /\
               users w' = Store.replace x (users w)).
Proof.
  intros Hrun. destruct out as [r|e].
  2: { left. exists e. split; [reflexivity|].
       exact (change_password_failure_keeps_store _ _ _ _ _ _ Hrun). }
  right. revert Hrun.
  destruct (Store.lookup_id (_id req_user) (users w)) as [user|] eqn:Hl.
  2: { rewrite change_password_no_record by exact Hl. discriminate. }
  destruct (supplied req "passwords" "old") as [old|] eqn:Ho.
  2: { rewrite change_password_no_passwords by exact Ho. discriminate. }
  destruct (supplied_together _ _ _ "new" _ Ho) as [new Hn].
  destruct (compare_with bcrypt old (hashedPassword user)) as [[|]|err] eqn:Hc.
  2,3: rewrite (change_password_compared _ _ _ _ _ _ _ Hl Ho Hn); cbv zeta;
       rewrite Hc; try rewrite orb_true_r; discriminate.
  destruct (truthy new) eqn:Ht.
  2: { rewrite (change_password_compared _ _ _ _ _ _ _ Hl Ho Hn); cbv zeta.
       rewrite Hc, Ht. discriminate. }
  destruct (hash_with bcrypt new bcryptSaltRounds
              (map (entropy w) (seq (drawn w) 16))) as [h|err] eqn:Hh.
  - rewrite (change_password_changed _ _ _ _ _ _ _ _ Hl Ho Hn Hc Ht Hh).
    cbv zeta. intros H. injection H as <- <-.
    do 2 eexists. split; [reflexivity|]. split; [|reflexivity].
    exact (proj1 (lookup_id_found _ _ _ Hl)).
  - rewrite (change_password_compared _ _ _ _ _ _ _ Hl Ho Hn); cbv zeta.
    rewrite Hc, Ht. cbn [negb orb].
    unfold catch_next, andThen, bcrypt_hash. cbv zeta.
    cbn [entropy drawn users trace log set_users]. rewrite Hh. discriminate.
Qed.

Lemma update_artist_effect req_user req w out w' :
  update_artist req_user req w = (out, w') ->
  (exists e, out = Next e /\ users w' = users w) \/
  (exists r x, out = Responded r /\ _id x = _id req_user /\
               users w' = Store.replace x (users w)).
Proof.
  destruct (Store.lookup_id (_id req_user) (users w)) as [user|] eqn:Hl.
  2: { rewrite update_artist_no_record by exact Hl.
       intros H. injection H as <- <-. left. eauto. }
  destruct (supplied req "credentials" "name") as [n|] eqn:Hn.
  2: { rewrite update_artist_no_credentials by exact Hn.
       intros H. injection H as <- <-. left. eauto. }
  destruct (supplied_together _ _ _ "location" _ Hn) as [l Hlo].
  destruct (supplied_together _ _ _ "biography" _ Hn) as [b Hb].
  rewrite (update_artist_found _ _ _ _ _ _ _ Hl Hn Hlo Hb). cbv zeta.
  intros H. injection H as <- <-. right.
  do 2 eexists. split; [reflexivity|]. split; [|reflexivity].
  exact (proj1 (lookup_id_found _ _ _ Hl)).
Qed.

Lemma sign_out_effect req_user req w out w' :
  sign_out req_user req w = (out, w') ->
  (exists e, out = Next e /\ users w' = users w) \/
  (exists r x, out = Responded r /\ _id x = _id req_user /\
               users w' = Store.replace x (users w)).
Proof.
  unfold sign_out, randomBytes. chain. cbv zeta. unfold Store.save.
  cbn [entropy drawn users trace log set_users].
  destruct (existsb _ (users w)); intros H; injection H as <- <-;
    [right; do 2 eexists; (split; [reflexivity|]; split; [|reflexivity];
            reflexivity)
    | left; eauto].
Qed.

(* ================================================================== *)
(** ** Every route *)
(* ================================================================== *)

(** What any route does to the collection. *)
Lemma router_effect bcrypt route req w out w' :
  router bcrypt route req w = (out, w') ->
  users w' = users w \/
  (exists r x, out = Responded r /\ users w' = Store.replace x (users w)) \/
  (exists r u, route = SignUp /\ out = Responded r /\
               users w' = users w ++ [u] /\
               _id u = Store.fresh_id (users w)).
Proof.
  destruct route; cbn [router]; intros Hrun.
  - rewrite view_artists_run in Hrun. injection Hrun as _ <-. now left.
  - destruct (sign_up_effect _ _ _ _ _ Hrun) as [[e [_ H]]|[r [u [Ho [Hu Hi]]]]].
    + now left.
    + right. right. exists r, u. auto.
  - destruct (sign_in_effect _ _ _ _ _ Hrun) as [[e [_ H]]|[r [x [Ho Hu]]]].
    + now left.
    + right. left. eauto.
  - unfold authenticated in Hrun.
    destruct (requireToken req w) as [[u|e] w1] eqn:Ha;
      destruct (requireToken_reads _ _ _ _ Ha) as [Hu _].
    2: { destruct e; injection Hrun as _ <-; now left. }
    destruct (change_password_effect _ _ _ _ _ _ Hrun)
      as [[e [_ H]]|[r [x [Ho [_ H]]]]]; rewrite Hu in H.
    + now left.
    + right. left. eauto.
  - unfold authenticated in Hrun.
    destruct (requireToken req w) as [[u|e] w1] eqn:Ha;
      destruct (requireToken_reads _ _ _ _ Ha) as [Hu _].
    2: { destruct e; injection Hrun as _ <-; now left. }
    destruct (update_artist_effect _ _ _ _ _ Hrun)
      as [[e [_ H]]|[r [x [Ho [_ H]]]]]; rewrite Hu in H.
    + now left.
    + right. left. eauto.
  - unfold authenticated in Hrun.
    destruct (requireToken req w) as [[u|e] w1] eqn:Ha;
      destruct (requireToken_reads _ _ _ _ Ha) as [Hu _].
    2: { destruct e; injection Hrun as _ <-; now left. }
    destruct (sign_out_effect _ _ _ _ _ Hrun)
      as [[e [_ H]]|[r [x [Ho [_ H]]]]]; rewrite Hu in H.
    + now left.
    + right. left. eauto.
  - rewrite show_run in Hrun. injection Hrun as _ <-. now left.
Qed.

(** X1. A request that ends in an error, on whatever route and for
    whatever cause (a guard, a miss, bcrypt, the store), leaves every
    stored record as it was. *)
Theorem failed_request_changes_no_record bcrypt route req w e w' :
  router bcrypt route req w = (Next e, w') -> users w' = users w.
Proof.
  destruct route; cbn [router]; intros Hrun.
  - rewrite view_artists_run in Hrun. discriminate.
  - destruct (sign_up_effect _ _ _ _ _ Hrun) as [[e' [_ H]]|[r [u [Ho _]]]];
      [exact H | discriminate].
  - destruct (sign_in_effect _ _ _ _ _ Hrun) as [[e' [_ H]]|[r [x [Ho _]]]];
      [exact H | discriminate].
  - unfold authenticated in Hrun.
    destruct (requireToken req w) as [[u|e'] w1] eqn:Ha;
      destruct (requireToken_reads _ _ _ _ Ha) as [Hu _].
    2: { destruct e'; try discriminate; now injection Hrun as _ <-. }
    rewrite <- Hu.
    exact (change_password_failure_keeps_store _ _ _ _ _ _ Hrun).
  - unfold authenticated in Hrun.
    destruct (requireToken req w) as [[u|e'] w1] eqn:Ha;
      destruct (requireToken_reads _ _ _ _ Ha) as [Hu _].
    2: { destruct e'; try discriminate; now injection Hrun as _ <-. }
    rewrite <- Hu.
    destruct (update_artist_effect _ _ _ _ _ Hrun)
      as [[e' [_ H]]|[r [x [Ho _]]]]; [exact H | discriminate].
  - unfold authenticated in Hrun.
    destruct (requireToken req w) as [[u|e'] w1] eqn:Ha;
      destruct (requireToken_reads _ _ _ _ Ha) as [Hu _].
    2: { destruct e'; try discriminate; now injection Hrun as _ <-. }
    rewrite <- Hu.
    destruct (sign_out_effect _ _ _ _ _ Hrun)
      as [[e' [_ H]]|[r [x [Ho _]]]]; [exact H | discriminate].
  - rewrite show_run in Hrun. now injection Hrun as _ <-.
Qed.

Lemma failed_request_changes_no_record_witness :
  let req := Sample.credentials [("email", VStr "ada@example.com");
                                 ("password", VStr "secret");
                                 ("password_confirmation", VStr "secret")] in
  users (snd (router plain_bcrypt SignUp req Sample.gallery))
  = users Sample.gallery.
Proof.
  intros req.
  apply (failed_request_changes_no_record plain_bcrypt SignUp req
           Sample.gallery (StoreError "E11000 duplicate key")).
  reflexivity.
Defined.


(** X2. No route deletes a record or changes an id: after any request the
    ids stored are the ids that were stored, in the same order, except
    that a sign-up that answered has appended one record under an id that
    was not in use. So ids that are all different stay all different. *)
Theorem routes_keep_records_and_ids bcrypt route req w out w' :
  router bcrypt route req w = (out, w') ->
  (map _id (users w') = map _id (users w) \/
   route = SignUp /\
   exists u, users w' = users w ++ [u] /\ ~ In (_id u) (map _id (users w))) /\
  (NoDup (map _id (users w)) -> NoDup (map _id (users w'))).
Proof.
  intros Hrun.
  destruct (router_effect _ _ _ _ _ _ Hrun)
    as [H|[[r [x [_ H]]]|[r [u [Hr [_ [H Hi]]]]]]]; rewrite H.
  - split; [now left | easy].
  - rewrite replace_ids. split; [now left | easy].
  - assert (Hnew : ~ In (_id u) (map _id (users w)))
      by (rewrite Hi; apply fresh_id_new).
    split.
    + right. split; [exact Hr|]. now exists u.
    + intros Hnd. rewrite map_app. simpl.
      apply NoDup_app; [exact Hnd | repeat constructor; easy |].
      intros i Hin [<-|[]]. now apply Hnew.
Qed.

Lemma routes_keep_records_and_ids_witness :
  let req := Sample.credentials [("email", VStr "grace@example.com");
                                 ("password", VStr "compiler");
                                 ("password_confirmation", VStr "compiler")] in
  let w' := snd (router plain_bcrypt SignUp req Sample.gallery) in
  (map _id (users w') = map _id (users Sample.gallery) \/
   SignUp = SignUp /\
   exists u, users w' = users Sample.gallery ++ [u] /\
             ~ In (_id u) (map _id (users Sample.gallery))) /\
  (NoDup (map _id (users Sample.gallery)) -> NoDup (map _id (users w'))).
Proof.
  intros req.
  apply (routes_keep_records_and_ids plain_bcrypt SignUp req Sample.gallery
           (fst (router plain_bcrypt SignUp req Sample.gallery))).
  reflexivity.
Defined.

(** X3. On the three routes mounted behind [requireToken], whatever the
    request carries, the record under any id other than the authenticated
    user's is after the request what it was before. *)
Theorem protected_route_writes_own_record_only bcrypt route req w user w1 out w' :
  protected route = true ->
  requireToken req w = (Ok user, w1) ->
  router bcrypt route req w = (out, w') ->
  forall i, i <> _id user ->
            Store.lookup_id i (users w') = Store.lookup_id i (users w).
Proof.
  intros Hp Ha Hrun i Hi.
  destruct (requireToken_reads _ _ _ _ Ha) as [Hu _].
  assert (E : users w' = users w \/
              exists x, _id x = _id user /\
                        users w' = Store.replace x (users w)).
  { destruct route; try discriminate; cbn [router] in Hrun;
      unfold authenticated in Hrun; rewrite Ha in Hrun.
    - destruct (change_password_effect _ _ _ _ _ _ Hrun)
        as [[e [_ H]]|[r [x [_ [Hx H]]]]]; rewrite Hu in H; eauto.
    - destruct (update_artist_effect _ _ _ _ _ Hrun)
        as [[e [_ H]]|[r [x [_ [Hx H]]]]]; rewrite Hu in H; eauto.
    - destruct (sign_out_effect _ _ _ _ _ Hrun)
        as [[e [_ H]]|[r [x [_ [Hx H]]]]]; rewrite Hu in H; eauto. }
  destruct E as [->|[x [Hx ->]]]; [reflexivity|].
  apply lookup_id_replace_other. congruence.
Qed.

Lemma protected_route_writes_own_record_only_witness :
  let req := Sample.as_ada [("credentials", VObj [("name", VStr "Countess")])] in
  Store.lookup_id 2 (users (snd (router plain_bcrypt UpdateArtist req
                                        Scenario.hall)))
  = Store.lookup_id 2 (users Scenario.hall).
Proof.
  intros req.
  apply (protected_route_writes_own_record_only plain_bcrypt UpdateArtist req
           Scenario.hall Sample.ada
           (log (FindOne "token" (VStr "c0ffee") (Some Sample.ada))
                Scenario.hall)
           (fst (router plain_bcrypt UpdateArtist req Scenario.hall)));
    try reflexivity.
  simpl. lia.
Defined.

(** X4. A sign-in that succeeds writes the token and nothing else: the
    record under any other id is untouched, and the matched record keeps
    its name, email, password hash, location, biography and artwork. *)
Theorem sign_in_changes_the_token_only bcrypt req w e pw user :
  supplied req "credentials" "email" = Some e ->
  supplied req "credentials" "password" = Some pw ->
  Store.lookup "email" e (users w) = Some user ->
  compare_with bcrypt pw (hashedPassword user) = Ok true ->
  let w' := snd (sign_in bcrypt req w) in
  (forall i, i <> _id user ->
             Store.lookup_id i (users w') = Store.lookup_id i (users w)) /\
  exists user',
    Store.lookup_id (_id user) (users w') = Some user' /\
    name user' = name user /\ email user' = email user /\
    hashedPassword user' = hashedPassword user /\
    location user' = location user /\ biography user' = biography user /\
    artwork user' = artwork user.
Proof.
  intros He Hp Hl Hc.
  rewrite (sign_in_matched _ _ _ _ _ _ He Hp Hl Hc). cbv zeta. cbn [snd users].
  split.
  - intros i Hi. apply lookup_id_replace_other. exact Hi.
  - eexists. split.
    + apply (lookup_id_replace (set_token _ user)).
      apply (stored_of_In user), (lookup_found _ _ _ _ Hl).
    + repeat split.
Qed.

Lemma sign_in_changes_the_token_only_witness :
  let req := Sample.credentials [("email", VStr "ada@example.com");
                                 ("password", VStr "secret")] in
  let w' := snd (sign_in plain_bcrypt req Scenario.hall) in
  (forall i, i <> _id Sample.ada ->
             Store.lookup_id i (users w')
             = Store.lookup_id i (users Scenario.hall)) /\
  exists user',
    Store.lookup_id (_id Sample.ada) (users w') = Some user' /\
    name user' = name Sample.ada /\ email user' = email Sample.ada /\
    hashedPassword user' = hashedPassword Sample.ada /\
    location user' = location Sample.ada /\
    biography user' = biography Sample.ada /\
    artwork user' = artwork Sample.ada.
Proof.
  intros req.
  apply (sign_in_changes_the_token_only plain_bcrypt req Scenario.hall
           (VStr "ada@example.com") (VStr "secret") Sample.ada);
    reflexivity.
Defined.

(** X5. Show answers 200 with the plain object of a stored record that
    has the id of the path whenever there is one, and is passed on as not
    found when there is none; either way it only reads: the collection
    and the entropy are untouched and the one outside call is the lookup
    by id. *)
Theorem show_answers_when_stored req w :
  let out := fst (show req w) in
  let w' := snd (show req w) in
  ((exists u, In u (users w) /\ _id u = params_id req) ->
   exists u, In u (users w) /\ _id u = params_id req /\
             out = Responded (mkResponse 200
                     (Some (VObj [("artist", Store.toObject u)])))) /\
  ((forall u, In u (users w) -> _id u <> params_id req) ->
   out = Next DocumentNotFoundError) /\
  users w' = users w /\ drawn w' = drawn w /\
  exists found, trace w' = FindById (params_id req) found :: trace w.
Proof.
  cbv zeta. rewrite show_run. cbn [fst snd users drawn trace log].
  repeat apply conj; try reflexivity.
  - intros [u [Hin Hid]].
    destruct (Store.lookup_id (params_id req) (users w)) as [u'|] eqn:Hl.
    + destruct (lookup_id_found _ _ _ Hl). eauto.
    + exfalso. unfold Store.lookup_id in Hl.
      apply (find_none _ _ Hl) in Hin. rewrite Hid, Nat.eqb_refl in Hin.
      discriminate.
  - intros Hnone.
    destruct (Store.lookup_id (params_id req) (users w)) as [u'|] eqn:Hl;
      [|reflexivity].
    destruct (lookup_id_found _ _ _ Hl) as [Hid Hin].
    exfalso. exact (Hnone _ Hin Hid).
  - eexists. reflexivity.
Qed.

(** X7. A body without a credentials object is told apart by sign-up
    only: sign-up guards the object (line 52) and ends in
    [BadParamsError]; sign-in (line 85) and update-artist (line 169) read a
    property of [undefined] and end in a [TypeError]. None of them writes. *)
Theorem missing_credentials_object bcrypt req_user req w :
  assoc "credentials" (body req) = VUndefined ->
  sign_up bcrypt req w = (Next BadParamsError, w) /\
  sign_in bcrypt req w = (Next TypeError, w) /\
  fst (update_artist req_user req w) = Next TypeError /\
  users (snd (update_artist req_user req w)) = users w.
Proof.
  intros Hc.
  assert (Hs : forall k, supplied req "credentials" k = None)
    by (intros k; unfold supplied; now rewrite Hc).
  repeat apply conj.
  - apply sign_up_guard. left. now rewrite Hc.
  - apply sign_in_no_credentials, Hs.
  - now rewrite update_artist_no_credentials by apply Hs.
  - now rewrite update_artist_no_credentials by apply Hs.
Qed.

Lemma missing_credentials_object_witness :
  let req := mkRequest (Some "c0ffee") 0 [] in
  sign_up plain_bcrypt req Sample.gallery = (Next BadParamsError, Sample.gallery)
  /\ sign_in plain_bcrypt req Sample.gallery = (Next TypeError, Sample.gallery)
  /\ fst (update_artist Sample.ada req Sample.gallery) = Next TypeError
  /\ users (snd (update_artist Sample.ada req Sample.gallery))
     = users Sample.gallery.
Proof.
  intros req.
  apply (missing_credentials_object plain_bcrypt Sample.ada req Sample.gallery).
  reflexivity.
Defined.


(* ================================================================== *)
(** ** Sign-up, continued *)
(* ================================================================== *)

(** The run of sign-up when the guard passed, bcrypt gave the hash and
    no stored email matches the new one. *)
Lemma sign_up_stored bcrypt req w h :
  let credentials := assoc "credentials" (body req) in
  let password := field credentials "password" in
  truthy credentials = true ->
  truthy password = true ->
  strict_eq password (field credentials "password_confirmation") = true ->
  hash_with bcrypt password bcryptSaltRounds
            (map (entropy w) (seq (drawn w) 16)) = Ok h ->
  existsb (fun u' => Store.matches (field credentials "email") (email u'))
          (users w) = false ->
  let user := Store.build (Store.fresh_id (users w))
                          (sign_up_doc credentials h) in
  sign_up bcrypt req w
  = (Responded (mkResponse 201 (Some (VObj [("user", Store.toObject user)]))),
     mkWorld (users w ++ [user]) (entropy w) (drawn w + 16)
             (Create (sign_up_doc credentials h)
              :: Hash password bcryptSaltRounds :: trace w)).
Proof.
  intros credentials password Hc Hp Heq Hh Hfree user.
  rewrite (sign_up_accepted bcrypt req w Hc Hp Heq). cbv zeta.
  fold credentials password. rewrite Hh.
  unfold catch_next, andThen, Store.create.
  cbn [entropy drawn users trace log set_users].
  change (email (Store.build (Store.fresh_id (users w))
                             (sign_up_doc credentials h)))
    with (field credentials "email").
  rewrite Hfree. reflexivity.
Qed.

(** X8. A sign-up that passes the guard, whose password bcrypt hashes and
    whose email no stored record has, answers 201 and appends one record
    under an id not in use: its [hashedPassword] is what
    [bcrypt.hash(password, 10)] gave, its [artwork] is empty, it has no
    token, and the outside calls were that hash and one [User.create]. *)
Theorem sign_up_stores_the_hash bcrypt req w h :
  let credentials := assoc "credentials" (body req) in
  let password := field credentials "password" in
  truthy credentials = true ->
  truthy password = true ->
  strict_eq password (field credentials "password_confirmation") = true ->
  hash_with bcrypt password bcryptSaltRounds
            (map (entropy w) (seq (drawn w) 16)) = Ok h ->
  existsb (fun u' => Store.matches (field credentials "email") (email u'))
          (users w) = false ->
  exists user w',
    sign_up bcrypt req w
    = (Responded (mkResponse 201 (Some (VObj [("user", Store.toObject user)]))),
       w') /\
    users w' = users w ++ [user] /\
    ~ In (_id user) (map _id (users w)) /\
    email user = field credentials "email" /\
    hashedPassword user = VStr h /\
    artwork user = VArr [] /\
    token user = VUndefined /\
    trace w' = Create (sign_up_doc credentials h)
               :: Hash password 10 :: trace w.
Proof.
  intros credentials password Hc Hp Heq Hh Hfree.
  eexists. eexists. split.
  - exact (sign_up_stored bcrypt req w h Hc Hp Heq Hh Hfree).
  - cbn [users trace]. repeat apply conj; try reflexivity.
    apply fresh_id_new.
Qed.

Lemma sign_up_stores_the_hash_witness :
  let req := Sample.credentials [("email", VStr "grace@example.com");
                                 ("password", VStr "compiler");
                                 ("password_confirmation", VStr "compiler")] in
  let credentials := assoc "credentials" (body req) in
  let h := "$2b$50759abfe4092e53789dc2e70c31567b$compiler" in
  exists user w',
    sign_up plain_bcrypt req Sample.gallery
    = (Responded (mkResponse 201 (Some (VObj [("user", Store.toObject user)]))),
       w') /\
    users w' = users Sample.gallery ++ [user] /\
    ~ In (_id user) (map _id (users Sample.gallery)) /\
    email user = field credentials "email" /\
    hashedPassword user = VStr h /\
    artwork user = VArr [] /\
    token user = VUndefined /\
    trace w' = Create (sign_up_doc credentials h)
               :: Hash (field credentials "password") 10
               :: trace Sample.gallery.
Proof.
  intros req credentials h.
  apply (sign_up_stores_the_hash plain_bcrypt req Sample.gallery h);
    reflexivity.
Defined.

(** X9. A sign-up that passes the guard but whose email a stored record
    already has is passed on with the store's rejection, and nothing is
    stored. *)
Theorem sign_up_taken_email bcrypt req w h :
  let credentials := assoc "credentials" (body req) in
  let password := field credentials "password" in
  truthy credentials = true ->
  truthy password = true ->
  strict_eq password (field credentials "password_confirmation") = true ->
  hash_with bcrypt password bcryptSaltRounds
            (map (entropy w) (seq (drawn w) 16)) = Ok h ->
  (exists u, In u (users w) /\
             Store.matches (field credentials "email") (email u) = true) ->
  exists message w',
    sign_up bcrypt req w = (Next (StoreError message), w') /\
    users w' = users w.
Proof.
  intros credentials password Hc Hp Heq Hh [u [Hin Hm]].
  rewrite (sign_up_accepted bcrypt req w Hc Hp Heq). cbv zeta.
  fold credentials password. rewrite Hh.
  unfold catch_next, andThen, Store.create.
  cbn [entropy drawn users trace log set_users].
  change (email (Store.build (Store.fresh_id (users w))
                             (sign_up_doc credentials h)))
    with (field credentials "email").
  replace (existsb _ (users w)) with true
    by (symmetry; apply existsb_exists; eauto).
  eexists. eexists. split; reflexivity.
Qed.

Lemma sign_up_taken_email_witness :
  let req := Sample.credentials [("email", VStr "ada@example.com");
                                 ("password", VStr "engine");
                                 ("password_confirmation", VStr "engine")] in
  exists message w',
    sign_up plain_bcrypt req Sample.gallery = (Next (StoreError message), w') /\
    users w' = users Sample.gallery.
Proof.
  intros req.
  apply (sign_up_taken_email plain_bcrypt req Sample.gallery
           "$2b$50759abfe4092e53789dc2e70c31567b$engine");
    try reflexivity.
  exists Sample.ada. split; [now left | reflexivity].
Defined.

(** X10. The guard of sign-up lets through any truthy password that is
    [===] its confirmation, a string or not; when [bcrypt.hash] rejects that
    password the handler passes the library's own error on, unchanged, and
    [User.create] is never called. *)
Theorem sign_up_passes_bcrypt_rejection bcrypt req w err :
  let credentials := assoc "credentials" (body req) in
  let password := field credentials "password" in
  truthy credentials = true ->
  truthy password = true ->
  strict_eq password (field credentials "password_confirmation") = true ->
  hash_with bcrypt password bcryptSaltRounds
            (map (entropy w) (seq (drawn w) 16)) = Rejected err ->
  exists w',
    sign_up bcrypt req w = (Next err, w') /\
    users w' = users w /\
    trace w' = Hash password 10 :: trace w.
Proof.
  intros credentials password Hc Hp Heq Hh.
  rewrite (sign_up_accepted bcrypt req w Hc Hp Heq). cbv zeta.
  fold credentials password. rewrite Hh.
  eexists. repeat split.
Qed.

Lemma sign_up_passes_bcrypt_rejection_witness :
  let req := Sample.credentials [("email", VStr "grace@example.com");
                                 ("password", VBool true);
                                 ("password_confirmation", VBool true)] in
  exists w',
    sign_up plain_bcrypt req Sample.gallery
    = (Next (BcryptError "data must be a string or Buffer and salt must either be a salt string or a number of rounds"), w') /\
    users w' = users Sample.gallery /\
    trace w' = Hash (VBool true) 10 :: trace Sample.gallery.
Proof.
  intros req.
  apply (sign_up_passes_bcrypt_rejection plain_bcrypt req Sample.gallery);
    reflexivity.
Defined.

Lemma lookup_id_appended us u :
  ~ In (_id u) (map _id us) -> Store.lookup_id (_id u) (us ++ [u]) = Some u.
Proof.
  unfold Store.lookup_id. induction us as [|x us IH]; simpl; intros Hn.
  - now rewrite Nat.eqb_refl.
  - destruct (Nat.eqb (_id x) (_id u)) eqn:E.
    + apply Nat.eqb_eq in E. exfalso. apply Hn. now left.
    + apply IH. intros H. apply Hn. now right.
Qed.

(** X11. What sign-up created, show finds: after a sign-up that answered,
    a request for the new record's id answers 200 with the very object
    the sign-up answered with. *)
Theorem show_after_sign_up bcrypt req w r w' :
  sign_up bcrypt req w = (Responded r, w') ->
  exists u rep,
    users w' = users w ++ [u] /\
    json r = Some (VObj [("user", rep)]) /\
    forall req', params_id req' = _id u ->
      fst (show req' w')
      = Responded (mkResponse 200 (Some (VObj [("artist", rep)]))).
Proof.
  intros Hrun.
  destruct (sign_up_created _ _ _ _ _ Hrun) as [h [Hu [-> _]]].
  cbv zeta in Hu. eexists. eexists. split; [exact Hu|].
  split; [reflexivity|].
  intros req' Hid. rewrite show_run. cbn [fst]. rewrite Hid, Hu.
  rewrite lookup_id_appended; [reflexivity|].
  rewrite build_id. apply fresh_id_new.
Qed.

Lemma show_after_sign_up_witness :
  let req := Sample.credentials [("email", VStr "grace@example.com");
                                 ("password", VStr "compiler");
                                 ("password_confirmation", VStr "compiler")] in
  let r := match fst (sign_up plain_bcrypt req Sample.gallery) with
           | Responded r => r
           | Next _ => mkResponse 0 None
           end in
  let w' := snd (sign_up plain_bcrypt req Sample.gallery) in
  exists u rep,
    users w' = users Sample.gallery ++ [u] /\
    json r = Some (VObj [("user", rep)]) /\
    forall req', params_id req' = _id u ->
      fst (show req' w')
      = Responded (mkResponse 200 (Some (VObj [("artist", rep)]))).
Proof.
  intros req r w'.
  apply (show_after_sign_up plain_bcrypt req Sample.gallery r w').
  reflexivity.
Defined.

Lemma lookup_appended k v us u :
  existsb (fun u' => Store.matches v (Store.path k u')) us = false ->
  Store.matches v (Store.path k u) = true ->
  Store.lookup k v (us ++ [u]) = Some u.
Proof.
  unfold Store.lookup. induction us as [|x us IH]; simpl; intros Hn Hm.
  - now rewrite Hm.
  - apply orb_false_iff in Hn as [Hx Hn]. rewrite Hx. now apply IH.
Qed.

(** X12. Sign-up then sign-in. When bcrypt accepts the password against
    the hash it gave for it, a sign-in with the credentials a sign-up just
    stored (the email a string no record had) answers 201 for that email,
    with a token made of the next 16 bytes of entropy, stored in the new
    record. *)
Theorem sign_in_after_sign_up bcrypt req w s p h :
  let credentials := assoc "credentials" (body req) in
  truthy credentials = true ->
  field credentials "email" = VStr s ->
  field credentials "password" = p ->
  truthy p = true ->
  strict_eq p (field credentials "password_confirmation") = true ->
  hash_with bcrypt p bcryptSaltRounds (map (entropy w) (seq (drawn w) 16))
  = Ok h ->
  compare_with bcrypt p (VStr h) = Ok true ->
  existsb (fun u' => Store.matches (VStr s) (email u')) (users w) = false ->
  exists r1 w1 user rep w2,
    sign_up bcrypt req w = (Responded r1, w1) /\
    status r1 = 201 /\
    users w1 = users w ++ [user] /\
    sign_in bcrypt req w1
    = (Responded (mkResponse 201 (Some (VObj [("user", VObj rep)]))), w2) /\
    assoc "email" rep = VStr s /\
    assoc "token" rep
    = VStr (hex (map (entropy w) (seq (drawn w + 16) 16))) /\
    Store.lookup_id (_id user) (users w2)
    = Some (set_token (VStr (hex (map (entropy w) (seq (drawn w + 16) 16))))
                      user).
Proof.
  intros credentials Hc He Hpw Hp Heq Hh Hcmp Hfree. subst p.
  pose proof (sign_up_stored bcrypt req w h Hc Hp Heq Hh) as Hup.
  cbv zeta in Hup. fold credentials in Hup. rewrite He in Hup.
  specialize (Hup Hfree).
  set (user := Store.build (Store.fresh_id (users w))
                           (sign_up_doc credentials h)) in *.
  set (w1 := mkWorld (users w ++ [user]) (entropy w) (drawn w + 16) _) in Hup.
  assert (Hs : forall k, supplied req "credentials" k
                         = Some (field credentials k)).
  { intros k. unfold supplied. fold credentials.
    destruct credentials; try discriminate; reflexivity. }
  assert (Hmail : email user = VStr s) by (unfold user; simpl; exact He).
  assert (Hl : Store.lookup "email" (VStr s) (users w1) = Some user).
  { unfold w1. cbn [users]. apply lookup_appended.
    - exact Hfree.
    - change (Store.path "email" user) with (email user). rewrite Hmail.
      simpl. apply String.eqb_refl. }
  assert (Hcmp' : compare_with bcrypt (field credentials "password")
                               (hashedPassword user) = Ok true)
    by exact Hcmp.
  pose proof (Hs "email") as Hse. rewrite He in Hse.
  pose proof (sign_in_matched bcrypt req w1 _ _ _ Hse (Hs "password") Hl Hcmp')
    as Hin.
  cbv zeta in Hin. unfold w1 in Hin at 2 3 4 5 6.
  cbn [users entropy drawn trace] in Hin.
  set (t := VStr (hex (map (entropy w) (seq (drawn w + 16) 16)))) in *.
  destruct (toObject_path (set_token t user) "token" eq_refl)
    as [rep [Hrep Htok]].
  destruct (toObject_path (set_token t user) "email" eq_refl)
    as [rep' [Hrep' Hem]].
  rewrite Hrep in Hrep'. injection Hrep' as <-.
  rewrite Hrep in Hin.
  exists (mkResponse 201 (Some (VObj [("user", Store.toObject user)]))), w1,
         user, rep.
  eexists. split; [exact Hup|]. split; [reflexivity|].
  split; [reflexivity|]. split; [exact Hin|].
  split; [rewrite Hem; exact Hmail|]. split; [exact Htok|].
  cbn [users]. apply (lookup_id_replace (set_token t user)).
  apply (stored_of_In user). apply in_or_app. right. now left.
Qed.

Lemma sign_in_after_sign_up_witness :
  let req := Sample.credentials [("email", VStr "x@y.com");
                                 ("password", VStr "secret");
                                 ("password_confirmation", VStr "secret")] in
  exists r1 w1 user rep w2,
    sign_up plain_bcrypt req Sample.empty = (Responded r1, w1) /\
    status r1 = 201 /\
    users w1 = users Sample.empty ++ [user] /\
    sign_in plain_bcrypt req w1
    = (Responded (mkResponse 201 (Some (VObj [("user", VObj rep)]))), w2) /\
    assoc "email" rep = VStr "x@y.com" /\
    assoc "token" rep
    = VStr (hex (map (entropy Sample.empty)
                     (seq (drawn Sample.empty + 16) 16))) /\
    Store.lookup_id (_id user) (users w2)
    = Some (set_token (VStr (hex (map (entropy Sample.empty)
                                      (seq (drawn Sample.empty + 16) 16))))
                      user).
Proof.
  intros req.
  apply (sign_in_after_sign_up plain_bcrypt req Sample.empty "x@y.com"
           (VStr "secret") "$2b$00254a6f94b9de03284d7297bce1062b$secret");
    reflexivity.
Defined.

(* ================================================================== *)
(** ** Sessions *)
(* ================================================================== *)

(** A query that found a record finds, after a write under that record's
    id of a document that still matches, the document written. *)
Lemma lookup_replace_match k v us u u' :
  Store.lookup k v us = Some u ->
  _id u' = _id u ->
  Store.matches v (Store.path k u') = true ->
  Store.lookup k v (Store.replace u' us) = Some u'.
Proof.
  unfold Store.lookup, Store.replace. intros Hl Hid Hm.
  induction us as [|x us IH]; simpl in *; [discriminate|].
  destruct (Nat.eqb (_id x) (_id u')) eqn:E.
  - now rewrite Hm.
  - destruct (Store.matches v (Store.path k x)) eqn:Hx.
    + injection Hl as ->. rewrite Hid, Nat.eqb_refl in E. discriminate.
    + now apply IH.
Qed.

(** A query that no stored record matches finds, after a write of a
    document that matches, the document written. *)
Lemma lookup_replace_fresh k v us u' :
  (forall x, In x us -> Store.matches v (Store.path k x) = false) ->
  existsb (fun x => Nat.eqb (_id x) (_id u')) us = true ->
  Store.matches v (Store.path k u') = true ->
  Store.lookup k v (Store.replace u' us) = Some u'.
Proof.
  unfold Store.lookup, Store.replace. intros Hno Hst Hm.
  induction us as [|x us IH]; simpl in *; [discriminate|].
  destruct (Nat.eqb (_id x) (_id u')) eqn:E.
  - now rewrite Hm.
  - rewrite (Hno x (or_introl eq_refl)). apply IH; auto.
Qed.

(** A query that the document written does not match finds, after the
    write, no record with the document's id. *)
Lemma lookup_replace_miss k v us u' u :
  Store.matches v (Store.path k u') = false ->
  Store.lookup k v (Store.replace u' us) = Some u ->
  _id u <> _id u' /\ In u us.
Proof.
  unfold Store.lookup, Store.replace. intros Hm Hl.
  apply find_some in Hl as [Hin Hu].
  apply in_map_iff in Hin as [x [Hx Hin]].
  destruct (Nat.eqb (_id x) (_id u')) eqn:E.
  - subst u. rewrite Hm in Hu. discriminate.
  - subst x. split; [now apply Nat.eqb_neq | exact Hin].
Qed.

(** X13. A change-password whose old password bcrypt accepts, whose new
    password is truthy and for which [bcrypt.hash(new, 10)] resolves
    answers 204; the store then holds, under the user's id, a record whose
    [hashedPassword] is what the hash gave and whose other fields are
    those of the record found; every other record is untouched. *)
Theorem change_password_stores_new_hash bcrypt req_user req w user old new h :
  Store.lookup_id (_id req_user) (users w) = Some user ->
  supplied req "passwords" "old" = Some old ->
  supplied req "passwords" "new" = Some new ->
  compare_with bcrypt old (hashedPassword user) = Ok true ->
  truthy new = true ->
  hash_with bcrypt new bcryptSaltRounds (map (entropy w) (seq (drawn w) 16))
  = Ok h ->
  exists w' stored,
    change_password bcrypt req_user req w
    = (Responded (mkResponse 204 None), w') /\
    Store.lookup_id (_id req_user) (users w') = Some stored /\
    hashedPassword stored = VStr h /\
    name stored = name user /\ email stored = email user /\
    location stored = location user /\ biography stored = biography user /\
    artwork stored = artwork user /\ token stored = token user /\
    (forall i, i <> _id req_user ->
               Store.lookup_id i (users w') = Store.lookup_id i (users w)) /\
    In (Hash new 10) (trace w') /\
    In (Save stored) (trace w').
Proof.
  intros Hl Ho Hn Hc Ht Hh.
  destruct (lookup_id_found _ _ _ Hl) as [Hid Hin].
  eexists. exists (set_hashedPassword (VStr h) user). split.
  - exact (change_password_changed _ _ _ _ _ _ _ _ Hl Ho Hn Hc Ht Hh).
  - cbn [users trace]. repeat apply conj; try reflexivity.
    + rewrite <- Hid.
      apply (lookup_id_replace (set_hashedPassword (VStr h) user)).
      apply (stored_of_In user), Hin.
    + intros i Hi. apply lookup_id_replace_other. simpl. congruence.
    + simpl. auto.
    + simpl. auto.
Qed.

Lemma change_password_stores_new_hash_witness :
  let req := Sample.as_ada [("passwords", VObj [("old", VStr "secret");
                                                 ("new", VStr "hunter2")])] in
  let h := "$2b$50759abfe4092e53789dc2e70c31567b$hunter2" in
  exists w' stored,
    change_password plain_bcrypt Sample.ada req Scenario.hall
    = (Responded (mkResponse 204 None), w') /\
    Store.lookup_id (_id Sample.ada) (users w') = Some stored /\
    hashedPassword stored = VStr h /\
    name stored = name Sample.ada /\ email stored = email Sample.ada /\
    location stored = location Sample.ada /\
    biography stored = biography Sample.ada /\
    artwork stored = artwork Sample.ada /\ token stored = token Sample.ada /\
    (forall i, i <> _id Sample.ada ->
               Store.lookup_id i (users w')
               = Store.lookup_id i (users Scenario.hall)) /\
    In (Hash (VStr "hunter2") 10) (trace w') /\
    In (Save stored) (trace w').
Proof.
  intros req h.
  apply (change_password_stores_new_hash plain_bcrypt Sample.ada req
           Scenario.hall Sample.ada (VStr "secret") (VStr "hunter2") h);
    reflexivity.
Defined.

(** X14. Change-password does not end the session: in a store whose ids
    are all different, after a change-password that answered, the request's
    own [Authorization] header is still resolved by [requireToken], to the
    same user with the same token. *)
Theorem change_password_keeps_session bcrypt req w user w1 r w' :
  NoDup (map _id (users w)) ->
  requireToken req w = (Ok user, w1) ->
  router bcrypt ChangePassword req w = (Responded r, w') ->
  exists user' w2,
    requireToken req w' = (Ok user', w2) /\
    _id user' = _id user /\
    token user' = token user /\
    email user' = email user.
Proof.
  intros Hnd Ha Hrun.
  destruct (requireToken_resolved _ _ _ _ Ha) as [b [Hb [Hl [Htok Hw1]]]].
  destruct (requireToken_reads _ _ _ _ Ha) as [Hu [He Hd]].
  assert (Hin : In user (users w)) by exact (lookup_found _ _ _ _ Hl).
  assert (Hid : Store.lookup_id (_id user) (users w1) = Some user)
    by (rewrite Hu; now apply lookup_id_unique).
  cbn [router] in Hrun. unfold authenticated in Hrun. rewrite Ha in Hrun.
  revert Hrun.
  destruct (supplied req "passwords" "old") as [old|] eqn:Ho.
  2: { rewrite change_password_no_passwords by exact Ho. discriminate. }
  destruct (supplied_together _ _ _ "new" _ Ho) as [new Hn].
  destruct (compare_with bcrypt old (hashedPassword user)) as [[|]|err] eqn:Hc.
  2,3: rewrite (change_password_compared _ _ _ _ _ _ _ Hid Ho Hn); cbv zeta;
       rewrite Hc; try rewrite orb_true_r; discriminate.
  destruct (truthy new) eqn:Ht.
  2: { rewrite (change_password_compared _ _ _ _ _ _ _ Hid Ho Hn); cbv zeta.
       rewrite Hc, Ht. discriminate. }
  destruct (hash_with bcrypt new bcryptSaltRounds
              (map (entropy w1) (seq (drawn w1) 16))) as [h|err] eqn:Hh.
  2: { rewrite (change_password_compared _ _ _ _ _ _ _ Hid Ho Hn); cbv zeta.
       rewrite Hc, Ht. cbn [negb orb].
       unfold catch_next, andThen, bcrypt_hash. cbv zeta.
       cbn [entropy drawn users trace log set_users]. rewrite Hh.
       discriminate. }
  rewrite (change_password_changed _ _ _ _ _ _ _ _ Hid Ho Hn Hc Ht Hh).
  cbv zeta. intros H. injection H as _ <-.
  exists (set_hashedPassword (VStr h) user). eexists.
  split; [|repeat split].
  unfold requireToken. rewrite Hb. unfold Store.findOne. chain.
  cbn [users]. rewrite Hu.
  rewrite (lookup_replace_match "token" (VStr b) (users w) user
             (set_hashedPassword (VStr h) user) Hl eq_refl).
  - reflexivity.
  - change (Store.path "token" (set_hashedPassword (VStr h) user))
      with (token user).
    rewrite Htok. simpl. apply String.eqb_refl.
Qed.

Lemma change_password_keeps_session_witness :
  let req := Sample.as_ada [("passwords", VObj [("old", VStr "secret");
                                                 ("new", VStr "hunter2")])] in
  exists user' w2,
    requireToken req (snd (router plain_bcrypt ChangePassword req Scenario.hall))
    = (Ok user', w2) /\
    _id user' = _id Sample.ada /\
    token user' = token Sample.ada /\
    email user' = email Sample.ada.
Proof.
  intros req.
  apply (change_password_keeps_session plain_bcrypt req Scenario.hall
           Sample.ada
           (log (FindOne "token" (VStr "c0ffee") (Some Sample.ada))
                Scenario.hall)
           (mkResponse 204 None)
           (snd (router plain_bcrypt ChangePassword req Scenario.hall)));
    try reflexivity.
  simpl. repeat constructor; simpl; intuition discriminate.
Defined.

(** X15. After a sign-out no [Authorization] header whatever is resolved
    to the user who signed out (the token stored is a buffer, a header is
    text); and if no other user held the old token, a request that still
    carries it is turned away as unauthorized. *)
Theorem sign_out_locks_the_account_out bcrypt req w user w1 :
  requireToken req w = (Ok user, w1) ->
  let w' := snd (router bcrypt SignOut req w) in
  (forall req' u w2, requireToken req' w' = (Ok u, w2) -> _id u <> _id user) /\
  ((forall u, In u (users w) -> token u = token user -> _id u = _id user) ->
   fst (requireToken req w') = Rejected Unauthorized).
Proof.
  intros Ha.
  destruct (requireToken_resolved _ _ _ _ Ha) as [b [Hb [Hl [Htok Hw1]]]].
  assert (Hst : existsb (fun u' => Nat.eqb (_id u') (_id user)) (users w)
                = true)
    by (apply stored_of_In, (lookup_found _ _ _ _ Hl)).
  cbn [router]. unfold authenticated. rewrite Ha. subst w1.
  rewrite sign_out_stored by exact Hst. cbv zeta. cbn [snd].
  cbn [entropy drawn users trace log set_users].
  set (user' := set_token (VBuffer _) user).
  set (w' := mkWorld _ _ _ _).
  assert (Hmiss : forall v, Store.matches (VStr v) (Store.path "token" user')
                            = false) by reflexivity.
  split.
  - intros req' u w2 Ha'.
    destruct (requireToken_resolved _ _ _ _ Ha') as [b' [_ [Hl' _]]].
    unfold w' in Hl'. cbn [users] in Hl'.
    exact (proj1 (lookup_replace_miss _ _ _ _ _ (Hmiss b') Hl')).
  - intros Honly. unfold requireToken. rewrite Hb.
    unfold Store.findOne. chain. unfold w'. cbn [users].
    destruct (Store.lookup "token" (VStr b) (Store.replace user' (users w)))
      as [u|] eqn:Hl'; [|reflexivity].
    exfalso.
    destruct (lookup_replace_miss _ _ _ _ _ (Hmiss b) Hl') as [Hne Hin].
    apply Hne. change (_id user') with (_id user). apply Honly; [exact Hin|].
    unfold Store.lookup in Hl'. apply find_some in Hl' as [_ Hm].
    change (Store.path "token" u) with (token u) in Hm.
    rewrite Htok. destruct (token u); simpl in Hm; try discriminate.
    apply String.eqb_eq in Hm. now subst.
Qed.

Lemma sign_out_locks_the_account_out_witness :
  let req := Sample.as_ada [] in
  let w' := snd (router plain_bcrypt SignOut req Scenario.hall) in
  (forall req' u w2, requireToken req' w' = (Ok u, w2) ->
                     _id u <> _id Sample.ada) /\
  ((forall u, In u (users Scenario.hall) -> token u = token Sample.ada ->
              _id u = _id Sample.ada) ->
   fst (requireToken req w') = Rejected Unauthorized).
Proof.
  intros req.
  apply (sign_out_locks_the_account_out plain_bcrypt req Scenario.hall
           Sample.ada
           (log (FindOne "token" (VStr "c0ffee") (Some Sample.ada))
                Scenario.hall)).
  reflexivity.
Defined.

(** X16. Sign-in then the middleware. If no stored record already held
    the text sign-in issues, a request that carries that text in its
    [Authorization] header is resolved by [requireToken] to the record
    sign-in saved. *)
Theorem issued_token_authenticates bcrypt req w e pw user :
  supplied req "credentials" "email" = Some e ->
  supplied req "credentials" "password" = Some pw ->
  Store.lookup "email" e (users w) = Some user ->
  compare_with bcrypt pw (hashedPassword user) = Ok true ->
  let t := hex (map (entropy w) (seq (drawn w) 16)) in
  (forall u, In u (users w) -> token u <> VStr t) ->
  forall req', authorization req' = Some t ->
    fst (requireToken req' (snd (sign_in bcrypt req w)))
    = Ok (set_token (VStr t) user).
Proof.
  intros He Hp Hl Hc t Hnew req' Hauth.
  rewrite (sign_in_matched _ _ _ _ _ _ He Hp Hl Hc). cbv zeta. cbn [snd].
  fold t. unfold requireToken. rewrite Hauth. unfold Store.findOne. chain.
  cbn [users].
  rewrite lookup_replace_fresh; [reflexivity| | |].
  - intros x Hin. change (Store.path "token" x) with (token x).
    specialize (Hnew x Hin).
    destruct (token x) as [| | | |s| | | |] eqn:Ht; try reflexivity.
    change (String.eqb t s = false). apply String.eqb_neq. congruence.
  - apply (stored_of_In user), (lookup_found _ _ _ _ Hl).
  - change (String.eqb t t = true). apply String.eqb_refl.
Qed.

Lemma issued_token_authenticates_witness :
  let req := Sample.credentials [("email", VStr "ada@example.com");
                                 ("password", VStr "secret")] in
  let t := "50759abfe4092e53789dc2e70c31567b" in
  fst (requireToken (mkRequest (Some t) 0 [])
                    (snd (sign_in plain_bcrypt req Sample.gallery)))
  = Ok (set_token (VStr t) Sample.ada).
Proof.
  intros req t.
  apply (issued_token_authenticates plain_bcrypt req Sample.gallery
           (VStr "ada@example.com") (VStr "secret") Sample.ada);
    try reflexivity.
  intros u [<-|[]]. simpl. discriminate.
Defined.

Lemma lookup_matches k v us u :
  Store.lookup k v us = Some u -> Store.matches v (Store.path k u) = true.
Proof. unfold Store.lookup. intros H. now apply find_some in H. Qed.

(** X17. A second sign-in succeeds like the first and replaces the token:
    after the first the record stored under the user's id has for [token]
    the hex text of the first 16 bytes drawn, after the second that of
    the next 16 (one token, not a list), and the token stored after the
    second is the one stored after the first only if the two draws were
    the same bytes. *)
Theorem second_sign_in_replaces_token bcrypt req w e pw user :
  supplied req "credentials" "email" = Some e ->
  supplied req "credentials" "password" = Some pw ->
  Store.lookup "email" e (users w) = Some user ->
  compare_with bcrypt pw (hashedPassword user) = Ok true ->
  let first := map (entropy w) (seq (drawn w) 16) in
  let second := map (entropy w) (seq (drawn w + 16) 16) in
  let w1 := snd (sign_in bcrypt req w) in
  let w2 := snd (sign_in bcrypt req w1) in
  exists stored1 stored2 r,
    Store.lookup_id (_id user) (users w1) = Some stored1 /\
    token stored1 = VStr (hex first) /\
    unhex (hex first) = Some first /\
    fst (sign_in bcrypt req w1) = Responded r /\
    status r = 201 /\
    Store.lookup_id (_id user) (users w2) = Some stored2 /\
    token stored2 = VStr (hex second) /\
    unhex (hex second) = Some second /\
    drawn w2 = drawn w + 32 /\
    (token stored2 = token stored1 <-> second = first).
Proof.
  intros He Hp Hl Hc first second.
  assert (Hst : existsb (fun u' => Nat.eqb (_id u') (_id user)) (users w)
                = true)
    by (apply (stored_of_In user), (lookup_found _ _ _ _ Hl)).
  rewrite (sign_in_matched _ _ _ _ _ _ He Hp Hl Hc). cbv zeta. cbn [snd].
  fold first. set (user1 := set_token (VStr (hex first)) user).
  set (w1 := mkWorld _ _ _ _).
  assert (Hl1 : Store.lookup "email" e (users w1) = Some user1).
  { unfold w1. cbn [users].
    apply (lookup_replace_match "email" e (users w) user user1 Hl eq_refl).
    exact (lookup_matches _ _ _ _ Hl). }
  assert (Hc1 : compare_with bcrypt pw (hashedPassword user1) = Ok true)
    by exact Hc.
  rewrite (sign_in_matched _ _ _ _ _ _ He Hp Hl1 Hc1). cbv zeta.
  cbn [fst snd]. unfold w1. cbn [users entropy drawn]. fold second.
  exists user1, (set_token (VStr (hex second)) user). eexists.
  repeat apply conj.
  - apply (lookup_id_replace user1). exact Hst.
  - reflexivity.
  - apply unhex_hex.
  - reflexivity.
  - reflexivity.
  - apply (lookup_id_replace (set_token (VStr (hex second)) user)).
    rewrite stored_replace. exact Hst.
  - reflexivity.
  - apply unhex_hex.
  - lia.
  - change (VStr (hex second) = VStr (hex first) -> second = first).
    intros H. apply hex_injective.
    exact (f_equal (fun v => match v with VStr t => t | _ => EmptyString end)
                   H).
  - change (second = first -> VStr (hex second) = VStr (hex first)).
    intros H. now rewrite H.
Qed.

Lemma second_sign_in_replaces_token_witness :
  let req := Sample.credentials [("email", VStr "ada@example.com");
                                 ("password", VStr "secret")] in
  let first := map (entropy Sample.gallery) (seq (drawn Sample.gallery) 16) in
  let second := map (entropy Sample.gallery)
                    (seq (drawn Sample.gallery + 16) 16) in
  let w1 := snd (sign_in plain_bcrypt req Sample.gallery) in
  let w2 := snd (sign_in plain_bcrypt req w1) in
  exists stored1 stored2 r,
    Store.lookup_id (_id Sample.ada) (users w1) = Some stored1 /\
    token stored1 = VStr (hex first) /\
    unhex (hex first) = Some first /\
    fst (sign_in plain_bcrypt req w1) = Responded r /\
    status r = 201 /\
    Store.lookup_id (_id Sample.ada) (users w2) = Some stored2 /\
    token stored2 = VStr (hex second) /\
    unhex (hex second) = Some second /\
    drawn w2 = drawn Sample.gallery + 32 /\
    (token stored2 = token stored1 <-> second = first).
Proof.
  intros req.
  apply (second_sign_in_replaces_token plain_bcrypt req Sample.gallery
           (VStr "ada@example.com") (VStr "secret") Sample.ada);
    reflexivity.
Defined.

(** X18. Update-artist on a record that is there answers 204 and stores
    each of [name], [location], [biography] as given when the given value
    is truthy, and as its sentinel when it is falsy (the empty string
    included); the record's email, password hash, token and artwork are
    as they were. *)
Theorem update_artist_stores_what_is_given req_user req w user n l b :
  Store.lookup_id (_id req_user) (users w) = Some user ->
  supplied req "credentials" "name" = Some n ->
  supplied req "credentials" "location" = Some l ->
  supplied req "credentials" "biography" = Some b ->
  exists user',
    fst (update_artist req_user req w) = Responded (mkResponse 204 None) /\
    Store.lookup_id (_id req_user) (users (snd (update_artist req_user req w)))
    = Some user' /\
    (truthy n = true -> name user' = n) /\
    (truthy l = true -> location user' = l) /\
    (truthy b = true -> biography user' = b) /\
    (truthy n = false -> name user' = VStr "Anonymous") /\
    (truthy l = false -> location user' = VStr "No Location Given") /\
    (truthy b = false -> biography user' = VStr "No Biography Found") /\
    email user' = email user /\
    hashedPassword user' = hashedPassword user /\
    token user' = token user /\
    artwork user' = artwork user.
Proof.
  intros Hl Hn Hlo Hb.
  destruct (lookup_id_found _ _ _ Hl) as [Hid Hin].
  rewrite (update_artist_found _ _ _ _ _ _ _ Hl Hn Hlo Hb). cbv zeta.
  cbn [fst snd users].
  exists (assign_profile (profile n l b) user).
  split; [reflexivity|]. split.
  - rewrite <- Hid.
    apply (lookup_id_replace (assign_profile (profile n l b) user)).
    apply (stored_of_In user), Hin.
  - unfold assign_profile, profile, or_else. simpl.
    repeat apply conj; try reflexivity; intros ->; reflexivity.
Qed.

Lemma update_artist_stores_what_is_given_witness :
  let req := Sample.as_ada [("credentials", VObj [("name", VStr "Countess");
                                                   ("location", VStr "")])] in
  let n := VStr "Countess" in
  let l := VStr "" in
  let b := VUndefined in
  exists user',
    fst (update_artist Sample.ada req Sample.gallery)
    = Responded (mkResponse 204 None) /\
    Store.lookup_id (_id Sample.ada)
                    (users (snd (update_artist Sample.ada req Sample.gallery)))
    = Some user' /\
    (truthy n = true -> name user' = n) /\
    (truthy l = true -> location user' = l) /\
    (truthy b = true -> biography user' = b) /\
    (truthy n = false -> name user' = VStr "Anonymous") /\
    (truthy l = false -> location user' = VStr "No Location Given") /\
    (truthy b = false -> biography user' = VStr "No Biography Found") /\
    email user' = email Sample.ada /\
    hashedPassword user' = hashedPassword Sample.ada /\
    token user' = token Sample.ada /\
    artwork user' = artwork Sample.ada.
Proof.
  intros req n l b.
  apply (update_artist_stores_what_is_given Sample.ada req Sample.gallery
           Sample.ada n l b); reflexivity.
Defined.

(** X19. When [bcrypt.compare] rejects (line 99), sign-in passes the
    library's own error on, not [BadCredentialsError]; no token is drawn
    and nothing is saved. *)
Theorem sign_in_passes_bcrypt_rejection bcrypt req w e pw user err :
  supplied req "credentials" "email" = Some e ->
  supplied req "credentials" "password" = Some pw ->
  Store.lookup "email" e (users w) = Some user ->
  compare_with bcrypt pw (hashedPassword user) = Rejected err ->
  let w' := snd (sign_in bcrypt req w) in
  fst (sign_in bcrypt req w) = Next err /\
  users w' = users w /\ drawn w' = drawn w /\
  trace w' = Compare pw (hashedPassword user) (Rejected err)
             :: FindOne "email" e (Some user) :: trace w.
Proof.
  intros He Hp Hl Hc.
  rewrite (sign_in_compared _ _ _ _ _ _ He Hp Hl). cbv zeta. rewrite Hc.
  repeat split.
Qed.

Lemma sign_in_passes_bcrypt_rejection_witness :
  let req := Sample.credentials [("email", VStr "ada@example.com");
                                 ("password", VBool true)] in
  let w' := snd (sign_in plain_bcrypt req Sample.gallery) in
  fst (sign_in plain_bcrypt req Sample.gallery)
  = Next (BcryptError "data and hash must be strings") /\
  users w' = users Sample.gallery /\ drawn w' = drawn Sample.gallery /\
  trace w' = Compare (VBool true) (hashedPassword Sample.ada)
                     (Rejected (BcryptError "data and hash must be strings"))
             :: FindOne "email" (VStr "ada@example.com") (Some Sample.ada)
             :: trace Sample.gallery.
Proof.
  intros req.
  apply (sign_in_passes_bcrypt_rejection plain_bcrypt req Sample.gallery
           (VStr "ada@example.com") (VBool true) Sample.ada);
    reflexivity.
Defined.

(** X20. Change-password then sign-in. After a change-password that
    stored a new hash, a sign-in for that user is decided by the new hash
    alone: [BadCredentialsError] when bcrypt finds no match with it, 201
    when it does. *)
Theorem sign_in_after_change_password
        bcrypt req_user change req w user old new h e pw verdict :
  Store.lookup_id (_id req_user) (users w) = Some user ->
  supplied change "passwords" "old" = Some old ->
  supplied change "passwords" "new" = Some new ->
  compare_with bcrypt old (hashedPassword user) = Ok true ->
  truthy new = true ->
  hash_with bcrypt new bcryptSaltRounds (map (entropy w) (seq (drawn w) 16))
  = Ok h ->
  supplied req "credentials" "email" = Some e ->
  supplied req "credentials" "password" = Some pw ->
  Store.lookup "email" e (users w) = Some user ->
  compare_with bcrypt pw (VStr h) = Ok verdict ->
  let w1 := snd (change_password bcrypt req_user change w) in
  (verdict = false -> fst (sign_in bcrypt req w1) = Next BadCredentialsError) /\
  (verdict = true ->
   exists r, fst (sign_in bcrypt req w1) = Responded r /\ status r = 201).
Proof.
  intros Hl Ho Hn Hc Ht Hh He Hp Hle Hv.
  rewrite (change_password_changed _ _ _ _ _ _ _ _ Hl Ho Hn Hc Ht Hh).
  cbv zeta. cbn [snd].
  set (user' := set_hashedPassword (VStr h) user).
  set (w1 := mkWorld _ _ _ _).
  assert (Hl1 : Store.lookup "email" e (users w1) = Some user').
  { unfold w1. cbn [users].
    apply (lookup_replace_match "email" e (users w) user user' Hle eq_refl).
    exact (lookup_matches _ _ _ _ Hle). }
  split; intros ->.
  - rewrite (sign_in_compared _ _ _ _ _ _ He Hp Hl1). cbv zeta.
    change (hashedPassword user') with (VStr h). now rewrite Hv.
  - assert (Hv' : compare_with bcrypt pw (hashedPassword user') = Ok true)
      by exact Hv.
    rewrite (sign_in_matched _ _ _ _ _ _ He Hp Hl1 Hv'). cbv zeta.
    eexists. split; reflexivity.
Qed.

Lemma sign_in_after_change_password_witness :
  let change := Sample.as_ada [("passwords", VObj [("old", VStr "secret");
                                                    ("new", VStr "hunter2")])] in
  let req := Sample.credentials [("email", VStr "ada@example.com");
                                 ("password", VStr "secret")] in
  let w1 := snd (change_password plain_bcrypt Sample.ada change
                                 Sample.gallery) in
  (false = false -> fst (sign_in plain_bcrypt req w1) = Next BadCredentialsError)
  /\ (false = true ->
      exists r, fst (sign_in plain_bcrypt req w1) = Responded r /\
                status r = 201).
Proof.
  intros change req.
  apply (sign_in_after_change_password plain_bcrypt Sample.ada change req
           Sample.gallery Sample.ada (VStr "secret") (VStr "hunter2")
           "$2b$50759abfe4092e53789dc2e70c31567b$hunter2"
           (VStr "ada@example.com") (VStr "secret") false);
    reflexivity.
Defined.
